(** * TEE attestation provisioner (go/runtime/host/sgx): shallow embedding

    The Go code of the SGX runtime provisioner is embedded as state-passing
    functions.  External collaborators (AESM quoting service, Intel PCS
    client, consensus registry, enclave connection, quote codec and
    verifier) are fields of an environment record [Env]; they act on an
    abstract world [W], so they may answer differently on every call.
    Every collaborator call made by the driver is appended to a trace. *)

From stdpp Require Import gmap strings list fin_maps pretty.
From Stdlib Require Import ZArith.
From Stdlib.Strings Require Import Byte.

Local Open Scope string_scope.
Local Open Scope list_scope.
Local Open Scope Z_scope.

(** ** Data model *)

(** Go [[]byte]. *)
Definition Bytes := list byte.

(** [common.Namespace]: the runtime identifier. *)
Definition Namespace := Bytes.

(** [version.Version]. *)
Record Version := mkVersion { Major : N; Minor : N; Patch : N }.

(** [time.Time], in seconds. *)
Definition Time := Z.

(** Key of the TCB tables: the 6 FMSPC bytes read as one number. *)
Definition FMSPC := N.

(** [aesm.AttestationKeyType]; only the ECDSA-P256 tag is tested by the
    driver. *)
Inductive AttestationKeyType :=
| AttestationKeyECDSA_P256
| AttestationKeyOther (tag : N).

(** [aesm.AttestationKeyID]. *)
Record AttestationKeyID := mkKeyID { Index : N; Type_ : AttestationKeyType }.

(** [pcs.CertificationData]: the variants the driver's type switch sees. *)
Inductive CertificationData :=
| CertificationData_PCKCertificateChain (chain : Bytes)
| CertificationData_PPID (ppid : Bytes) (cpusvn : Bytes) (pcesvn pceid : N)
| CertificationData_Other (tag : N).

(** [pcs.QuoteSignatureECDSA_P256]. *)
Record QuoteSignatureECDSA_P256 := mkQS {
  AttestationPublicKey : Bytes;
  CertData : CertificationData;
}.

(** [pcs.QuoteSignature]: the interface value held by [quote.Signature]. *)
Inductive QuoteSignature :=
| SigECDSA_P256 (qs : QuoteSignatureECDSA_P256)
| SigOther (tag : N).

(** [pcs.Quote] (decoded). *)
Record Quote := mkQuote { ReportData : Bytes; Signature : QuoteSignature }.

(** [pcs.PCKInfo]. *)
Record PCKInfo := mkPCKInfo {
  PCK_FMSPC : FMSPC;
  PCK_CPUSVN : Bytes;
  PCK_PCESVN : N;
  PCK_PCEID : N;
}.

(** [pcs.TCBBundle]: the two signed documents, and the [nextUpdate] date
    the cache reads. *)
Record TCBBundle := mkBundle {
  TCBInfo : string;
  QEIdentity : string;
  NextUpdate : Time;
}.

(** [pcs.QuotePolicy] and [sgxQuote.Policy]. *)
Record QuotePolicy := mkQuotePolicy {
  Disabled : bool;
  TCBValidityPeriod : N;
  MinTCBEvaluationDataNumber : N;
}.
Record Policy := mkPolicy { Policy_PCS : option QuotePolicy }.

(** [pcs.QuoteBundle] and [sgxQuote.Quote]. *)
Record QuoteBundle := mkQuoteBundle { QB_Quote : Bytes; QB_TCB : TCBBundle }.
Record SgxQuote := mkSgxQuote { Quote_PCS : option QuoteBundle }.

(** [node.SGXAttestation]. *)
Record SGXAttestation := mkSGXAttestation {
  Versioned : N;
  Att_Quote : SgxQuote;
  Height : N;
  Att_Signature : Bytes;
}.

(** [node.CapabilityTEE] ([Hardware] is the constant
    [TEEHardwareIntelSGX]). *)
Record CapabilityTEE := mkCapabilityTEE {
  RAK : Bytes;
  REK : Bytes;
  Attestation : Bytes;
}.

(** Registry consensus parameters: [TEEFeatures] is a pointer. *)
Record TEEFeaturesSGX := mkSGXFeatures { PCS : bool }.
Record TEEFeatures := mkTEEFeatures { SGX : TEEFeaturesSGX }.
Record ConsensusParameters := mkParams { Params_TEEFeatures : option TEEFeatures }.

(** ** Errors *)

(** [pcs.TCBOutOfDateError]. *)
Record TCBOutOfDateError := mkTCBErr {
  Kind : N;
  Status : N;
  AdvisoryIDs : list string;
}.

(** Go [error] values: [fmt.Errorf] with its format and its [%s]
    arguments, without ([Errorf]) or with ([Wrapf]) an error wrapped by
    [%w]; the typed TCB error; and errors made by collaborators. *)
Inductive error :=
| Errorf (format : string) (args : list string)
| Wrapf (format : string) (args : list string) (wrapped : error)
| ErrTCBOutOfDate (e : TCBOutOfDateError)
| ErrExternal (msg : string).

(** [errors.As(err, &tcbErr)]: the first [*pcs.TCBOutOfDateError] in the
    chain of wrapped errors. *)
Fixpoint errors_As_TCB (err : error) : option TCBOutOfDateError :=
  match err with
  | ErrTCBOutOfDate t => Some t
  | Wrapf _ _ inner => errors_As_TCB inner
  | Errorf _ _ => None
  | ErrExternal _ => None
  end.

(** What a Go call hands back: a value, an error, or a panic. *)
Inductive result (A : Type) :=
| Ok (a : A)
| Err (e : error)
| Panic (msg : string).
Arguments Ok {A} a.
Arguments Err {A} e.
Arguments Panic {A} msg.

Definition is_Ok {A} (r : result A) : bool :=
  match r with Ok _ => true | _ => false end.

Definition is_Err {A} (r : result A) : bool :=
  match r with Err _ => true | _ => false end.

(** ** Enclave protocol *)

Record RakReportResponse := mkRakReport {
  RakPub : Bytes;
  RekPub : Bytes;
  Report : Bytes;
  Nonce : string;
}.

Record RakQuoteResponse := mkRakQuote {
  Rsp_Height : N;
  Rsp_Signature : Bytes;
}.

(** Requests the driver sends ([protocol.Body] with one field set). *)
Inductive Request :=
| RuntimeCapabilityTEERakInitRequest (targetInfo : Bytes)
| RuntimeCapabilityTEERakReportRequest
| RuntimeCapabilityTEERakQuoteRequest (q : SgxQuote).

(** The reply body: each field is a pointer. *)
Record Body := mkBody {
  RuntimeCapabilityTEERakReportResponse : option RakReportResponse;
  RuntimeCapabilityTEERakQuoteResponse : option RakQuoteResponse;
}.

(** ** Trace, log and metrics *)

Inductive event :=
| EvConsensusParameters
| EvGetAttestationKeyIDs
| EvGetTargetInfo (key : AttestationKeyID)
| EvGetQuoteEx (key : option AttestationKeyID) (report : Bytes)
| EvGetQuotePolicies
| EvGetTCBBundle (fmspc : FMSPC)
| EvConnCall (req : Request)
| EvEPIDInit
| EvEPIDUpdate
| EvEmitUpdated (v : Version) (c : CapabilityTEE).

Definition is_pcs_fetch (e : event) : bool :=
  match e with EvGetTCBBundle _ => true | _ => false end.


Definition is_emit (e : event) : bool :=
  match e with EvEmitUpdated _ _ => true | _ => false end.

Definition is_aesm_call (e : event) : bool :=
  match e with
  | EvGetAttestationKeyIDs | EvGetTargetInfo _ | EvGetQuoteEx _ _ => true
  | _ => false
  end.

Inductive level := Debug | Info | Warn | Error.

Record logEntry := mkLog { lvl : level; msg : string }.

(** The three Prometheus counter vectors, by [runtime] label. *)
Record Metrics := mkMetrics {
  teeAttestationsPerformed : gmap string nat;
  teeAttestationsSuccessful : gmap string nat;
  teeAttestationsFailed : gmap string nat;
}.

(** [vec.With(labels).Inc()]. *)
Definition Inc (runtime : string) (vec : gmap string nat) : gmap string nat :=
  <[runtime := S (default 0%nat (vec !! runtime))]> vec.

Definition counter (vec : gmap string nat) (runtime : string) : nat :=
  default 0%nat (vec !! runtime).

(** ** TCB cache *)

(** Modelled from the spec: the entry of the TCB cache (section 3,
    TCBCacheEntry), which is not among the sources. *)
Record TCBCacheEntry := mkEntry {
  entry_bundle : TCBBundle;
  fetched_at : Time;
  next_refresh_at : Time;
}.

(** Modelled from the spec: the [tcbCache] type (its [check], [cache] and
    [newTcbCache]) is not among the sources.  Following section 4.4: entries
    are keyed by FMSPC; [lookup] answers the cached bundle and whether a
    refresh is due (no entry, or [now >= next_refresh_at]); [store] sets
    [next_refresh_at] to the earlier of [nextUpdate - safety_margin] and
    [now + refresh_interval]; entries persist through the key/value store
    and are loaded again when a cache is created.  [cacheRef] stands for
    the identity of the Go object behind the [*tcbCache] pointer. *)
Record tcbCache := mkCache {
  cacheRef : nat;
  entries : gmap FMSPC TCBCacheEntry;
}.

(** Modelled from the spec: the constants of [store] (section 4.4), one
    hour and fifteen minutes, in seconds. *)
Definition refresh_interval : Z := 3600.
Definition safety_margin : Z := 900.

(** Modelled from the spec: [tcbCache.check], the [lookup] of section 4.4. *)
Definition tcbCache_check (tc : tcbCache) (fmspc : FMSPC) (now : Time)
  : option TCBBundle * bool :=
  match entries tc !! fmspc with
  | None => (None, true)
  | Some e => (Some (entry_bundle e), bool_decide (next_refresh_at e <= now))
  end.

(** Modelled from the spec: the entry [store] writes (section 4.4). *)
Definition new_entry (b : TCBBundle) (now : Time) : TCBCacheEntry :=
  {| entry_bundle := b;
     fetched_at := now;
     next_refresh_at := Z.min (NextUpdate b - safety_margin) (now + refresh_interval) |}.

(** Modelled from the spec: [tcbCache.cache], the [store] of section 4.4. *)
Definition tcbCache_cache (tc : tcbCache) (b : TCBBundle) (fmspc : FMSPC) (now : Time)
  : tcbCache :=
  {| cacheRef := cacheRef tc; entries := <[fmspc := new_entry b now]> (entries tc) |}.

(** ** TEE state *)

(** [teeStateImplCommon]. *)
Record teeStateImplCommon := mkCommon {
  impl_runtimeID : Namespace;
  impl_version : Version;
}.

(** [teeStateECDSA]; [key] and [tcbCache] are pointers, nil until [Init]. *)
Record teeStateECDSA := mkECDSA {
  ec_common : teeStateImplCommon;
  ec_key : option AttestationKeyID;
  ec_tcbCache : option tcbCache;
}.

Definition teeStateECDSA_zero : teeStateECDSA :=
  {| ec_common := {| impl_runtimeID := []; impl_version := mkVersion 0 0 0 |};
     ec_key := None;
     ec_tcbCache := None |}.

(** [teeStateEPID]: its fields are not read by the code embedded here. *)
Record teeStateEPID := mkEPID {
  ep_common : teeStateImplCommon;
  ep_epidGID : N;
}.

Definition teeStateEPID_zero : teeStateEPID :=
  {| ep_common := {| impl_runtimeID := []; impl_version := mkVersion 0 0 0 |};
     ep_epidGID := 0 |}.

(** The [teeStateImpl] interface value held by [teeState.impl]. *)
Inductive teeStateImpl :=
| ImplECDSA (ec : teeStateECDSA)
| ImplEPID (ep : teeStateEPID).

(** [teeState]; [impl] is nil until [init]. *)
Record teeState := mkTeeState {
  runtimeID : Namespace;
  version : Version;
  impl : option teeStateImpl;
}.

(** ** Collaborators *)

(** The code outside the embedded files, as functions on the world [W].
    A Go call returning [(value, err)] answers [Ok value] or [Err err]
    (the value is nil when there is an error).
    [QuoteVerify] is [quote.Verify] with the time as an argument;
    [EPID_Init] and [EPID_Update] are the methods of [teeStateEPID], whose
    source is not available; [metricsEnabled] is [metrics.Enabled()];
    [Now] reads the clock. *)
Record Env (W : Type) := mkEnv {
  ConsensusParams : W -> W * result ConsensusParameters;
  GetAttestationKeyIDs : W -> W * result (list AttestationKeyID);
  GetTargetInfo : AttestationKeyID -> W -> W * result Bytes;
  GetQuoteEx : option AttestationKeyID -> Bytes -> W -> W * result Bytes;
  getQuotePolicies : teeStateImplCommon -> W -> W * result (option Policy);
  GetTCBBundle : FMSPC -> W -> W * result TCBBundle;
  ConnCall : Request -> W -> W * result Body;
  EPID_Init : teeStateEPID -> Namespace -> Version -> W -> W * (result Bytes * teeStateEPID);
  EPID_Update : teeStateEPID -> Bytes -> string -> W -> W * (result Bytes * teeStateEPID);
  UnmarshalBinary : Bytes -> result Quote;
  NewMockQuote : Bytes -> result Bytes;
  VerifyPCK : QuoteSignatureECDSA_P256 -> Time -> result PCKInfo;
  QuoteVerify : Quote -> option QuotePolicy -> Time -> TCBBundle -> option error;
  cbor_Marshal : SGXAttestation -> Bytes;
  Namespace_String : Namespace -> string;
  LatestSGXAttestationVersion : N;
  metricsEnabled : bool;
  Now : W -> Time;
}.
Arguments ConsensusParams {W}.
Arguments GetAttestationKeyIDs {W}.
Arguments GetTargetInfo {W}.
Arguments GetQuoteEx {W}.
Arguments getQuotePolicies {W}.
Arguments GetTCBBundle {W}.
Arguments ConnCall {W}.
Arguments EPID_Init {W}.
Arguments EPID_Update {W}.
Arguments UnmarshalBinary {W}.
Arguments NewMockQuote {W}.
Arguments VerifyPCK {W}.
Arguments QuoteVerify {W}.
Arguments cbor_Marshal {W}.
Arguments Namespace_String {W}.
Arguments LatestSGXAttestationVersion {W}.
Arguments metricsEnabled {W}.
Arguments Now {W}.

(** ** Driver state *)

(** What the provisioner and its surroundings hold besides the TEE state:
    the world of the collaborators, the trace of calls made to them, the
    log, the metrics registry, the persistent service store (the part
    holding the TCB cache entries) and the next free object identity. *)
Record St (W : Type) := mkSt {
  world : W;
  trace : list event;
  logs : list logEntry;
  metrics : Metrics;
  serviceStore : gmap FMSPC TCBCacheEntry;
  nextRef : nat;
}.
Arguments mkSt {W}.
Arguments world {W}.
Arguments trace {W}.
Arguments logs {W}.
Arguments metrics {W}.
Arguments serviceStore {W}.
Arguments nextRef {W}.

(** ** A state and error monad for the Go control flow *)

(** A computation over a state [S] that ends with a value, with a returned
    error or with a panic; an error or a panic ends the function at once,
    as [if err != nil { return nil, err }] does. *)
Definition M (S A : Type) : Type := S -> result A * S.

Definition ret {S A} (a : A) : M S A := fun s => (Ok a, s).

Definition throw {S A} (e : error) : M S A := fun s => (Err e, s).

Definition bind {S A B} (m : M S A) (k : A -> M S B) : M S B :=
  fun s =>
    match m s with
    | (Ok a, s') => k a s'
    | (Err e, s') => (Err e, s')
    | (Panic p, s') => (Panic p, s')
    end.

Notation "'let*' x ':=' c 'in' k" := (bind c (fun x => k))
  (at level 10, x name, c at level 100, k at level 200).

(** [fmt.Errorf(format, err)] around a failing call, where the format
    wraps the error with [%w]. *)
Definition wrap {S A} (format : string) (m : M S A) : M S A :=
  fun s =>
    match m s with
    | (Err e, s') => (Err (Wrapf format [] e), s')
    | other => other
    end.

(** A pure fallible function used inside a computation. *)
Definition pure {S A} (r : result A) : M S A := fun s => (r, s).

(** Methods with a pointer receiver [R] run on the pair of the receiver
    and the driver state. *)
Definition onSt {R S A} (m : M S A) : M (R * S) A :=
  fun '(r, s) => let '(a, s') := m s in (a, (r, s')).

Definition getR {R S} : M (R * S) R := fun '(r, s) => (Ok r, (r, s)).

Definition setR {R S} (f : R -> R) : M (R * S) unit :=
  fun '(r, s) => (Ok tt, (f r, s)).

Section Driver.
Context {W : Type} (env : Env W).

Definition set_world (w : W) (ev : event) (st : St W) : St W :=
  mkSt w (trace st ++ [ev]) (logs st) (metrics st) (serviceStore st) (nextRef st).

Definition set_metrics (m : Metrics) (st : St W) : St W :=
  mkSt (world st) (trace st) (logs st) m (serviceStore st) (nextRef st).

Definition set_store (s : gmap FMSPC TCBCacheEntry) (st : St W) : St W :=
  mkSt (world st) (trace st) (logs st) (metrics st) s (nextRef st).

(** A collaborator call: the world moves and the call is traced. *)
Definition call {A} (ev : event) (f : W -> W * result A) : M (St W) A :=
  fun st => let '(w', r) := f (world st) in (r, set_world w' ev st).

(** [logger.Debug/Info/Warn/Error(msg, ...)]. *)
Definition logf (l : level) (m : string) (st : St W) : St W :=
  mkSt (world st) (trace st) (logs st ++ [mkLog l m]) (metrics st)
       (serviceStore st) (nextRef st).

(** Modelled from the spec: [newTcbCache(sp.serviceStore, sp.logger)], a
    new cache object over the persistent store, with the stored entries
    loaded (section 3, TCBCacheEntry). *)
Definition newTcbCache : M (St W) tcbCache := fun st =>
  (Ok {| cacheRef := nextRef st; entries := serviceStore st |},
   mkSt (world st) (trace st) (logs st) (metrics st) (serviceStore st)
        (S (nextRef st))).

(** Modelled from the spec: [tcbCache.cache] on the object and, through
    [persist], on the service store. *)
Definition cache_store (tc : tcbCache) (b : TCBBundle) (fmspc : FMSPC) (st : St W)
  : tcbCache * St W :=
  let now := Now env (world st) in
  (tcbCache_cache tc b fmspc now,
   set_store (<[fmspc := new_entry b now]> (serviceStore st)) st).

(** [time.Now()]. *)
Definition time_Now : M (St W) Time := fun st => (Ok (Now env (world st)), st).

(** *** teeStateECDSA (src/unnamed/part_000) *)

(** The loop of [Init]: the first key whose type is ECDSA-P256. *)
Fixpoint firstECDSAKey (akeys : list AttestationKeyID) : option AttestationKeyID :=
  match akeys with
  | [] => None
  | akey :: rest =>
      match Type_ akey with
      | AttestationKeyECDSA_P256 => Some akey
      | AttestationKeyOther _ => firstECDSAKey rest
      end
  end.

(** [regParams.TEEFeatures == nil || !regParams.TEEFeatures.SGX.PCS]. *)
Definition pcs_unsupported (regParams : ConsensusParameters) : bool :=
  match Params_TEEFeatures regParams with
  | None => true
  | Some f => negb (PCS (SGX f))
  end.

(** [teeStateECDSA.Init]. *)
Definition teeStateECDSA_Init (runtimeID : Namespace) (version : Version)
  : M (teeStateECDSA * St W) Bytes :=
  let* regParams :=
    wrap "unable to determine registry consensus parameters: %w"
         (onSt (call EvConsensusParameters (ConsensusParams env))) in
  if pcs_unsupported regParams then
    throw (Errorf "ECDSA not supported by the registry" [])
  else
    let* akeys :=
      wrap "unable to fetch attestation key IDs: %w"
           (onSt (call EvGetAttestationKeyIDs (GetAttestationKeyIDs env))) in
    match firstECDSAKey akeys with
    | None => throw (Errorf "no suitable ECDSA attestation keys found" [])
    | Some key =>
        let* targetInfo := onSt (call (EvGetTargetInfo key) (GetTargetInfo env key)) in
        let* _ := setR (fun ec =>
          {| ec_common := {| impl_runtimeID := runtimeID; impl_version := version |};
             ec_key := Some key;
             ec_tcbCache := ec_tcbCache ec |}) in
        let* tc := onSt newTcbCache in
        let* _ := setR (fun ec =>
          {| ec_common := ec_common ec; ec_key := ec_key ec; ec_tcbCache := Some tc |}) in
        ret targetInfo
    end.

(** [teeStateECDSA.verifyBundle]: Go's [error] result is [None] for nil.
    The only effect is the log entry of the TCB branch. *)
Definition teeStateECDSA_verifyBundle (quote : Quote) (quotePolicy : option QuotePolicy)
    (tcbBundle : option TCBBundle) (which : string) (st : St W)
  : option error * St W :=
  match tcbBundle with
  | None => (Some (Errorf "nil bundle is not valid" []), st)
  | Some b =>
      match QuoteVerify env quote quotePolicy (Now env (world st)) b with
      | None => (None, st)
      | Some err =>
          match errors_As_TCB err with
          | Some tcbErr =>
              (Some (ErrTCBOutOfDate tcbErr), logf Error "TCB is not up to date" st)
          | None =>
              (Some (Wrapf "quote verification failed (%s bundle): %w" [which] err), st)
          end
      end
  end.

(** The function literal of [Update] that picks the TCB bundle, from the
    verification of the cached bundle on: the code after the
    [if refresh { ... }] block.  It answers the [*pcs.TCBBundle] pointer. *)
Definition Update_tcbBundle_cached (quote : Quote) (quotePolicy : option QuotePolicy)
    (fmspc : FMSPC) (cached : option TCBBundle) (refresh : bool)
    (tc : tcbCache) (st : St W)
  : result (option TCBBundle) * tcbCache * St W :=
  match teeStateECDSA_verifyBundle quote quotePolicy cached "cached" st with
  | (None, st1) => (Ok cached, tc, st1)
  | (Some err, st1) =>
      (* If downloaded already, don't try again but just return the last error. *)
      if refresh then
        (Err (Wrapf "both fresh and cached TCB bundles failed verification, cached error: %w"
                    [] err), tc, st1)
      else
        (* If not downloaded yet this time round, try forcing. *)
        match call (EvGetTCBBundle fmspc) (GetTCBBundle env fmspc) st1 with
        | (Err e, st2) => (Err e, tc, logf Warn "error downloading TCB" st2)
        | (Panic p, st2) => (Panic p, tc, st2)
        | (Ok fresh, st2) =>
            match teeStateECDSA_verifyBundle quote quotePolicy (Some fresh) "downloaded" st2 with
            | (Some err', st3) => (Err err', tc, st3)
            | (None, st3) =>
                let '(tc', st4) := cache_store tc fresh fmspc st3 in
                (Ok (Some fresh), tc', st4)
            end
        end
  end.

(** The whole function literal: [check], the scheduled refresh, then the
    rest.  A failed download leaves [fresh] nil. *)
Definition Update_tcbBundle (quote : Quote) (quotePolicy : option QuotePolicy)
    (fmspc : FMSPC) (tc : tcbCache) (st : St W)
  : result (option TCBBundle) * tcbCache * St W :=
  let '(cached, refresh) := tcbCache_check tc fmspc (Now env (world st)) in
  if refresh then
    match call (EvGetTCBBundle fmspc) (GetTCBBundle env fmspc) st with
    | (Panic p, st1) => (Panic p, tc, st1)
    | (r, st1) =>
        let '(fresh, st2) :=
          match r with
          | Ok b => (Some b, st1)
          | _ => (None, logf Warn "error downloading TCB refresh" st1)
          end in
        match teeStateECDSA_verifyBundle quote quotePolicy fresh "fresh" st2 with
        | (None, st3) =>
            match fresh with
            | Some b =>
                let '(tc', st4) := cache_store tc b fmspc st3 in
                (Ok fresh, tc', st4)
            | None => (Panic "nil pointer dereference", tc, st3)
            end
        | (Some _, st3) =>
            Update_tcbBundle_cached quote quotePolicy fmspc cached refresh tc
              (logf Warn "error verifying downloaded TCB refresh" st3)
        end
    end
  else
    Update_tcbBundle_cached quote quotePolicy fmspc cached refresh tc st.

(** The function literal as a step of the method: it runs on the cache
    object behind [ec.tcbCache]. *)
Definition Update_selectBundle (quote : Quote) (quotePolicy : option QuotePolicy)
    (fmspc : FMSPC) : M (teeStateECDSA * St W) (option TCBBundle) :=
  fun '(ec, st) =>
    match ec_tcbCache ec with
    | None => (Panic "nil pointer dereference", (ec, st))
    | Some tc =>
        let '(r, tc', st') := Update_tcbBundle quote quotePolicy fmspc tc st in
        (r, ({| ec_common := ec_common ec; ec_key := ec_key ec;
                ec_tcbCache := Some tc' |}, st'))
    end.

(** The end of [Update]: the quote structure, the [RakQuote] call to the
    runtime and the encoded attestation. *)
Definition Update_rakQuote {R} (rawQuote : Bytes) (tcbBundle : TCBBundle)
  : M (R * St W) Bytes :=
  let q := {| Quote_PCS := Some {| QB_Quote := rawQuote; QB_TCB := tcbBundle |} |} in
  let* rspBody :=
    wrap "error while configuring quote: %w"
         (onSt (call (EvConnCall (RuntimeCapabilityTEERakQuoteRequest q))
                     (ConnCall env (RuntimeCapabilityTEERakQuoteRequest q)))) in
  match RuntimeCapabilityTEERakQuoteResponse rspBody with
  | None => throw (Errorf "unexpected response from runtime" [])
  | Some rsp =>
      ret (cbor_Marshal env
             {| Versioned := LatestSGXAttestationVersion env;
                Att_Quote := q;
                Height := Rsp_Height rsp;
                Att_Signature := Rsp_Signature rsp |})
  end.

Definition ErrPPIDUnsupported : error :=
  Errorf "PPID certification data not yet supported; please install a quote provider" [].

(** The [%s] of a type tag: its [String] method is not among the sources,
    the number is shown. *)
Definition tag_String (tag : N) : string := pretty tag.

(** [teeStateECDSA.Update]; the last parameter (the nonce) is [_] in the
    source. *)
Definition teeStateECDSA_Update (report : Bytes) (nonce : string)
  : M (teeStateECDSA * St W) Bytes :=
  let* ec := getR in
  let* rawQuote :=
    wrap "failed to get quote: %w"
         (onSt (call (EvGetQuoteEx (ec_key ec) report)
                     (GetQuoteEx env (ec_key ec) report))) in
  let* quote := wrap "failed to parse quote: %w" (pure (UnmarshalBinary env rawQuote)) in
  (* Check what information we need to retrieve based on what is in the quote. *)
  match Signature quote with
  | SigOther tag =>
      throw (Errorf "unsupported attestation key type: %s" [tag_String tag])
  | SigECDSA_P256 qs =>
      match CertData qs with
      | CertificationData_PPID _ _ _ _ => throw ErrPPIDUnsupported
      | CertificationData_Other tag =>
          throw (Errorf "unsupported certification data type: %s" [tag_String tag])
      | CertificationData_PCKCertificateChain _ =>
          (* Verify PCK certificate and extract the information required
             to get the TCB bundle. *)
          let* now := onSt time_Now in
          let* pckInfo := wrap "PCK verification failed: %w" (pure (VerifyPCK env qs now)) in
          (* Get current quote policy from the consensus layer. *)
          let* policies :=
            onSt (call EvGetQuotePolicies (getQuotePolicies env (ec_common ec))) in
          let quotePolicy :=
            match policies with Some p => Policy_PCS p | None => None end in
          let* tcbBundle := Update_selectBundle quote quotePolicy (PCK_FMSPC pckInfo) in
          match tcbBundle with
          | None => fun s => (Panic "nil pointer dereference", s)
          | Some b => Update_rakQuote rawQuote b
          end
      end
  end.

(** *** go/runtime/host/sgx/common/metrics.go *)

(** [UpdateAttestationMetrics]; [err] is Go's [error] ([None] for nil).
    [teeState.update] calls it with the runtime identifier of the state. *)
Definition UpdateAttestationMetrics (runtimeID : Namespace) (err : option error)
    (st : St W) : St W :=
  if negb (metricsEnabled env) then st
  else
    let runtime := Namespace_String env runtimeID in
    let m := metrics st in
    let performed := Inc runtime (teeAttestationsPerformed m) in
    match err with
    | Some _ =>
        set_metrics {| teeAttestationsPerformed := performed;
                       teeAttestationsSuccessful := teeAttestationsSuccessful m;
                       teeAttestationsFailed := Inc runtime (teeAttestationsFailed m) |} st
    | None =>
        set_metrics {| teeAttestationsPerformed := performed;
                       teeAttestationsSuccessful := Inc runtime (teeAttestationsSuccessful m);
                       teeAttestationsFailed := teeAttestationsFailed m |} st
    end.

(** *** go/runtime/host/sgx/sgx.go *)

Definition set_impl (i : teeStateImpl) (ts : teeState) : teeState :=
  {| runtimeID := runtimeID ts; version := version ts; impl := Some i |}.

(** A method of [teeStateEPID], through the environment. *)
Definition callEPID {A} (ev : event) (f : W -> W * (result A * teeStateEPID)) (st : St W)
  : result A * teeStateEPID * St W :=
  let '(w', (r, ep')) := f (world st) in (r, ep', set_world w' ev st).

(** [teeState.init]: ECDSA first; if it fails, EPID. *)
Definition teeState_init : M (teeState * St W) Bytes :=
  fun '(ts, st) =>
    match impl ts with
    | Some _ => (Err (Errorf "already initialized" []), (ts, st))
    | None =>
        match teeStateECDSA_Init (runtimeID ts) (version ts) (teeStateECDSA_zero, st) with
        | (Ok targetInfo, (implECDSA, st1)) =>
            (Ok targetInfo, (set_impl (ImplECDSA implECDSA) ts, st1))
        | (Panic p, (_, st1)) => (Panic p, (ts, st1))
        | (Err _, (_, st1)) =>
            let st2 := logf Debug "ECDSA attestation initialization failed, trying EPID" st1 in
            match callEPID EvEPIDInit
                    (EPID_Init env teeStateEPID_zero (runtimeID ts) (version ts)) st2 with
            | (Ok targetInfo, implEPID, st3) =>
                (Ok targetInfo, (set_impl (ImplEPID implEPID) ts, st3))
            | (Err e, _, st3) => (Err e, (ts, st3))
            | (Panic p, _, st3) => (Panic p, (ts, st3))
            end
        end
    end.

(** [ts.impl.Init(...)]: the dynamic dispatch on the implementation; the
    receiver behind the interface is updated in place. *)
Definition teeStateImpl_Init (i : teeStateImpl) (ts : teeState) (st : St W)
  : result Bytes * (teeState * St W) :=
  match i with
  | ImplECDSA ec =>
      let '(r, (ec', st')) := teeStateECDSA_Init (runtimeID ts) (version ts) (ec, st) in
      (r, (set_impl (ImplECDSA ec') ts, st'))
  | ImplEPID ep =>
      let '(r, ep', st') :=
        callEPID EvEPIDInit (EPID_Init env ep (runtimeID ts) (version ts)) st in
      (r, (set_impl (ImplEPID ep') ts, st'))
  end.

(** [ts.impl.Update(...)]. *)
Definition teeStateImpl_Update (i : teeStateImpl) (report : Bytes) (nonce : string)
    (ts : teeState) (st : St W) : result Bytes * (teeState * St W) :=
  match i with
  | ImplECDSA ec =>
      let '(r, (ec', st')) := teeStateECDSA_Update report nonce (ec, st) in
      (r, (set_impl (ImplECDSA ec') ts, st'))
  | ImplEPID ep =>
      let '(r, ep', st') := callEPID EvEPIDUpdate (EPID_Update env ep report nonce) st in
      (r, (set_impl (ImplEPID ep') ts, st'))
  end.

(** [teeState.updateTargetInfo]. *)
Definition teeState_updateTargetInfo : M (teeState * St W) Bytes :=
  fun '(ts, st) =>
    match impl ts with
    | None => (Err (Errorf "not initialized" []), (ts, st))
    | Some i => teeStateImpl_Init i ts st
    end.

(** [teeState.update]: the implementation's [Update], then the metrics. *)
Definition teeState_update (report : Bytes) (nonce : string)
  : M (teeState * St W) Bytes :=
  fun '(ts, st) =>
    match impl ts with
    | None => (Err (Errorf "not initialized" []), (ts, st))
    | Some i =>
        match teeStateImpl_Update i report nonce ts st with
        | (Ok attestation, (ts', st')) =>
            (Ok attestation, (ts', UpdateAttestationMetrics (runtimeID ts') None st'))
        | (Err err, (ts', st')) =>
            (Err err, (ts', UpdateAttestationMetrics (runtimeID ts') (Some err) st'))
        | (Panic p, s') => (Panic p, s')
        end
    end.

(** [sgxProvisioner.updateTargetInfo]: the [RakInit] call. *)
Definition sgxProvisioner_updateTargetInfo (targetInfo : Bytes) : M (St W) unit :=
  let* _ := call (EvConnCall (RuntimeCapabilityTEERakInitRequest targetInfo))
                 (ConnCall env (RuntimeCapabilityTEERakInitRequest targetInfo)) in
  ret tt.

(** [sgxProvisioner.initCapabilityTEE]. *)
Definition sgxProvisioner_initCapabilityTEE (rtID : Namespace) (ver : Version)
  : M (St W) teeState :=
  fun st =>
    let ts := {| runtimeID := rtID; version := ver; impl := None |} in
    let body : M (teeState * St W) unit :=
      let* targetInfo := wrap "error while initializing TEE state: %w" teeState_init in
      wrap "error while updating TEE target info: %w"
           (onSt (sgxProvisioner_updateTargetInfo targetInfo)) in
    match body (ts, st) with
    | (Ok _, (ts', st')) => (Ok ts', st')
    | (Err e, (_, st')) => (Err e, st')
    | (Panic p, (_, st')) => (Panic p, st')
    end.

(** [sgxProvisioner.updateCapabilityTEE]: one attestation. *)
Definition sgxProvisioner_updateCapabilityTEE : M (teeState * St W) CapabilityTEE :=
  (* Update report target info in case the QE identity has changed. *)
  let* targetInfo :=
    wrap "error while updating TEE target info: %w" teeState_updateTargetInfo in
  let* _ :=
    wrap "error while updating TEE target info: %w"
         (onSt (sgxProvisioner_updateTargetInfo targetInfo)) in
  let* rakQuoteRes :=
    wrap "error while requesting worker quote and public RAK: %w"
         (onSt (call (EvConnCall RuntimeCapabilityTEERakReportRequest)
                     (ConnCall env RuntimeCapabilityTEERakReportRequest))) in
  match RuntimeCapabilityTEERakReportResponse rakQuoteRes with
  | None => fun s => (Panic "nil pointer dereference", s)
  | Some rsp =>
      let* attestation := teeState_update (Report rsp) (Nonce rsp) in
      ret {| RAK := RakPub rsp; REK := RekPub rsp; Attestation := attestation |}
  end.

(** *** The attestation worker *)

(** The case taken by the [select] of the worker loop. *)
Inductive selected := SelProcessWait | SelTick | SelNotify.

Inductive workerStatus :=
| Running                    (* back at the [select] *)
| Returned                   (* the goroutine has returned *)
| Crashed (p : string).      (* a panic left the goroutine *)

(** The worker goroutine: its TEE state, the driver state, and two
    counters kept for the proofs: the [t.Reset] calls made and the
    [updateCapabilityTEE] calls started. *)
Record Worker := mkWorker {
  w_ts : teeState;
  w_st : St W;
  tickerResets : nat;
  attests : nat;
  status : workerStatus;
}.

(** The updated-capability events emitted so far. *)
Definition emitted (st : St W) : list event :=
  List.filter is_emit (trace st).

Definition emit (ver : Version) (c : CapabilityTEE) (st : St W) : St W :=
  mkSt (world st) (trace st ++ [EvEmitUpdated ver c]) (logs st) (metrics st)
       (serviceStore st) (nextRef st).

(** One iteration of the [for] loop of [attestationWorker], for the case
    the [select] took; [ver] is [hp.Version]. *)
Definition attestationWorker_iter (ver : Version) (sel : selected) (wk : Worker) : Worker :=
  match sel with
  | SelProcessWait =>
      (* Process has terminated. *)
      mkWorker (w_ts wk) (w_st wk) (tickerResets wk) (attests wk) Returned
  | _ =>
      let resets :=
        match sel with
        | SelNotify => S (tickerResets wk)     (* t.Reset(...) *)
        | _ => tickerResets wk
        end in
      let st1 := logf Info "regenerating CapabilityTEE" (w_st wk) in
      match sgxProvisioner_updateCapabilityTEE (w_ts wk, st1) with
      | (Err _, (ts', st2)) =>
          mkWorker ts' (logf Error "failed to regenerate CapabilityTEE" st2)
                   resets (S (attests wk)) Running
      | (Ok capabilityTEE, (ts', st2)) =>
          mkWorker ts' (emit ver capabilityTEE st2) resets (S (attests wk)) Running
      | (Panic p, (ts', st2)) =>
          mkWorker ts' st2 resets (S (attests wk)) (Crashed p)
      end
  end.

(** The loop, over the cases its successive [select]s take. *)
Fixpoint attestationWorker (ver : Version) (sels : list selected) (wk : Worker) : Worker :=
  match sels with
  | [] => wk
  | sel :: rest =>
      match status wk with
      | Running => attestationWorker ver rest (attestationWorker_iter ver sel wk)
      | _ => wk
      end
  end.

(** *** The channels of the worker *)











(** *** go/runtime/host/sgx/mock.go *)

(** [teeStateMock] is [struct{}]. *)
Definition teeStateMock := unit.

(** [teeStateMock.Init]. *)
Definition teeStateMock_Init : M (teeStateMock * St W) Bytes :=
  let* regParams :=
    wrap "unable to determine registry consensus parameters: %w"
         (onSt (call EvConsensusParameters (ConsensusParams env))) in
  if pcs_unsupported regParams then
    throw (Errorf "ECDSA not supported by the registry" [])
  else
    (* Generate mock QE target info. *)
    ret (replicate 512 x00).

(** Modelled from the spec: [sgxCommon.UpdateRuntimeQuote] is not among
    the sources.  Section 4.5: call the enclave with the quote and the
    TCB bundle ([RakQuote]), receive the height and the signature, assemble
    the attestation; these are the steps [teeStateECDSA.Update] has
    inline. *)
Definition UpdateRuntimeQuote (quoteBundle : QuoteBundle) : M (teeStateMock * St W) Bytes :=
  Update_rakQuote (QB_Quote quoteBundle) (QB_TCB quoteBundle).

(** [teeStateMock.Update]; [GetTCBBundle] is called with the constants
    [pcs.TeeTypeSGX] and [pcs.UpdateStandard]. *)
Definition teeStateMock_Update (report : Bytes) (nonce : string)
  : M (teeStateMock * St W) Bytes :=
  let* rawQuote := wrap "failed to get quote: %w" (pure (NewMockQuote env report)) in
  let* quote := wrap "failed to parse quote: %w" (pure (UnmarshalBinary env rawQuote)) in
  match Signature quote with
  | SigOther _ =>
      (* [qs] is the nil [*QuoteSignatureECDSA_P256] here; the argument is
         the name of its key type. *)
      throw (Errorf "unsupported attestation key type: %s" ["ECDSA-P256"])
  | SigECDSA_P256 qs =>
      let* now := onSt time_Now in
      let* pckInfo := wrap "PCK verification failed: %w" (pure (VerifyPCK env qs now)) in
      let* tcbBundle :=
        onSt (call (EvGetTCBBundle (PCK_FMSPC pckInfo))
                   (GetTCBBundle env (PCK_FMSPC pckInfo))) in
      UpdateRuntimeQuote {| QB_Quote := rawQuote; QB_TCB := tcbBundle |}
  end.

End Driver.

Arguments attests {W}.
Arguments tickerResets {W}.
Arguments status {W}.
Arguments w_ts {W}.
Arguments w_st {W}.
Arguments mkWorker {W}.

(** ** The refresh policy of section 4.4, from the words of the spec *)



Section DriverNotions.
Context {W : Type} (env : Env W).

(** The verdict of [verifyBundle], without its log entry. *)
Definition verifyBundle_verdict (quote : Quote) (quotePolicy : option QuotePolicy)
    (now : Time) (which : string) (tcbBundle : option TCBBundle) : option error :=
  match tcbBundle with
  | None => Some (Errorf "nil bundle is not valid" [])
  | Some b =>
      match QuoteVerify env quote quotePolicy now b with
      | None => None
      | Some err =>
          match errors_As_TCB err with
          | Some tcbErr => Some (ErrTCBOutOfDate tcbErr)
          | None => Some (Wrapf "quote verification failed (%s bundle): %w" [which] err)
          end
      end
  end.



End DriverNotions.


(** ** Sample collaborators

    A family of concrete environments over the world [nat]: every
    collaborator call advances the world by one, and the clock shows the
    world.  The script fixes what the collaborators answer. *)
Module Sample.

Record Script := mkScript {
  s_pcs : bool;                               (* the registry's PCS flag *)
  s_keys : nat -> list AttestationKeyID;      (* the AESM key list, by world *)
  s_cert : CertificationData;                 (* certification data of the quote *)
  s_fetch : nat -> result TCBBundle;          (* the answer of Intel PCS, by world *)
  s_verify : TCBBundle -> option error;       (* [quote.Verify] *)
  s_epid : result Bytes;                      (* [teeStateEPID.Init] *)
  s_metrics : bool;                           (* [metrics.Enabled()] *)
  s_nonce : string;                           (* the nonce of [RakReport] *)
}.

Definition fmspc0 : FMSPC := 0x00906ED50000%N.

Definition policy0 : QuotePolicy :=
  {| Disabled := false; TCBValidityPeriod := 30; MinTCBEvaluationDataNumber := 12 |}.

Definition reply (nonce : string) : Body :=
  {| RuntimeCapabilityTEERakReportResponse :=
       Some {| RakPub := [x01]; RekPub := [x02]; Report := [x2a]; Nonce := nonce |};
     RuntimeCapabilityTEERakQuoteResponse :=
       Some {| Rsp_Height := 7; Rsp_Signature := [x03] |} |}.

Definition sampleEnv (s : Script) : Env nat :=
  {| ConsensusParams := fun w =>
       (S w, Ok {| Params_TEEFeatures := Some {| SGX := {| PCS := s_pcs s |} |} |});
     GetAttestationKeyIDs := fun w => (S w, Ok (s_keys s w));
     GetTargetInfo := fun _ w => (S w, Ok [x10]);
     GetQuoteEx := fun _ report w => (S w, Ok report);
     getQuotePolicies := fun _ w => (S w, Ok (Some {| Policy_PCS := Some policy0 |}));
     GetTCBBundle := fun _ w => (S w, s_fetch s w);
     ConnCall := fun _ w => (S w, Ok (reply (s_nonce s)));
     EPID_Init := fun ep _ _ w => (S w, (s_epid s, ep));
     EPID_Update := fun ep _ _ w => (S w, (Ok [x0e], ep));
     UnmarshalBinary := fun raw =>
       Ok {| ReportData := raw;
             Signature := SigECDSA_P256
                            {| AttestationPublicKey := [x04]; CertData := s_cert s |} |};
     NewMockQuote := fun report => Ok report;
     VerifyPCK := fun _ _ =>
       Ok {| PCK_FMSPC := fmspc0; PCK_CPUSVN := []; PCK_PCESVN := 11; PCK_PCEID := 0 |};
     QuoteVerify := fun _ _ _ b => s_verify s b;
     cbor_Marshal := fun a =>
       match Quote_PCS (Att_Quote a) with
       | Some qb => QB_Quote qb
       | None => []
       end;
     Namespace_String := fun _ => "8000000000000000";
     LatestSGXAttestationVersion := 1;
     metricsEnabled := s_metrics s;
     Now := fun w => Z.of_nat w |}.

Definition ecdsaKey (i : N) : AttestationKeyID :=
  {| Index := i; Type_ := AttestationKeyECDSA_P256 |}.

Definition epidKey : AttestationKeyID :=
  {| Index := 0; Type_ := AttestationKeyOther 0 |}.

Definition bundleA : TCBBundle :=
  {| TCBInfo := "tcb-A"; QEIdentity := "qe-A"; NextUpdate := 100000 |}.

Definition bundleB : TCBBundle :=
  {| TCBInfo := "tcb-B"; QEIdentity := "qe-B"; NextUpdate := 200000 |}.

Definition outOfDate : error :=
  ErrTCBOutOfDate {| Kind := 0; Status := 3; AdvisoryIDs := ["INTEL-SA-00334"] |}.

(** The usual host: PCS enabled, one ECDSA key, a PCK chain in the quote,
    Intel PCS serving [bundleB], every bundle verifying. *)
Definition happy : Script :=
  {| s_pcs := true;
     s_keys := fun _ => [epidKey; ecdsaKey 1];
     s_cert := CertificationData_PCKCertificateChain [x30];
     s_fetch := fun _ => Ok bundleB;
     s_verify := fun _ => None;
     s_epid := Ok [x0e];
     s_metrics := true;
     s_nonce := "nonce-1" |}.

Definition noMetrics : Metrics :=
  {| teeAttestationsPerformed := ∅;
     teeAttestationsSuccessful := ∅;
     teeAttestationsFailed := ∅ |}.

Definition st0 : St nat :=
  {| world := 0%nat; trace := []; logs := []; metrics := noMetrics;
     serviceStore := ∅; nextRef := 0%nat |}.

Definition rt0 : Namespace := [x80; x00].
Definition v0 : Version := mkVersion 0 3 0.

(** An initialised ECDSA state with an empty cache. *)
Definition ec0 : teeStateECDSA :=
  {| ec_common := {| impl_runtimeID := rt0; impl_version := v0 |};
     ec_key := Some (ecdsaKey 1);
     ec_tcbCache := Some {| cacheRef := 0%nat; entries := ∅ |} |}.

(** The same with [bundleA] cached and no refresh due before time 900. *)
Definition cacheA : tcbCache :=
  {| cacheRef := 0%nat;
     entries := {[ fmspc0 := {| entry_bundle := bundleA; fetched_at := 0;
                                next_refresh_at := 900 |} ]} |}.

(** The quoting service answers a quote whose certification data is a
    PPID. *)
Definition ppidQuote : Script :=
  {| s_pcs := true;
     s_keys := fun _ => [epidKey; ecdsaKey 1];
     s_cert := CertificationData_PPID [x50] [x43] 11 0;
     s_fetch := fun _ => Ok bundleB;
     s_verify := fun _ => None;
     s_epid := Ok [x0e];
     s_metrics := true;
     s_nonce := "nonce-1" |}.

(** The usual host with the metrics switched off. *)
Definition metricsOff : Script :=
  {| s_pcs := true;
     s_keys := fun _ => [epidKey; ecdsaKey 1];
     s_cert := CertificationData_PCKCertificateChain [x30];
     s_fetch := fun _ => Ok bundleB;
     s_verify := fun _ => None;
     s_epid := Ok [x0e];
     s_metrics := false;
     s_nonce := "nonce-1" |}.

(** An initialised TEE state. *)
Definition tsECDSA : teeState :=
  {| runtimeID := rt0; version := v0; impl := Some (ImplECDSA ec0) |}.

(** AESM offers no ECDSA key (the registry supports PCS). *)
Definition epidOnly : Script :=
  {| s_pcs := true;
     s_keys := fun _ => [epidKey];
     s_cert := CertificationData_PCKCertificateChain [x30];
     s_fetch := fun _ => Ok bundleB;
     s_verify := fun _ => None;
     s_epid := Ok [x0e];
     s_metrics := true;
     s_nonce := "nonce-1" |}.

(** AESM answers a different ECDSA key identifier at every query. *)
Definition rotating : Script :=
  {| s_pcs := true;
     s_keys := fun w => [epidKey; ecdsaKey (N.of_nat w)];
     s_cert := CertificationData_PCKCertificateChain [x30];
     s_fetch := fun _ => Ok bundleB;
     s_verify := fun _ => None;
     s_epid := Ok [x0e];
     s_metrics := true;
     s_nonce := "nonce-1" |}.

(** Intel PCS is unreachable. *)
Definition pcsDown : Script :=
  {| s_pcs := true;
     s_keys := fun _ => [epidKey; ecdsaKey 1];
     s_cert := CertificationData_PCKCertificateChain [x30];
     s_fetch := fun _ => Err (ErrExternal "pcs: connection refused");
     s_verify := fun _ => None;
     s_epid := Ok [x0e];
     s_metrics := true;
     s_nonce := "nonce-1" |}.

(** The policy has tightened: [bundleA] is out of date, [bundleB] is
    accepted. *)
Definition tightened : Script :=
  {| s_pcs := true;
     s_keys := fun _ => [epidKey; ecdsaKey 1];
     s_cert := CertificationData_PCKCertificateChain [x30];
     s_fetch := fun _ => Ok bundleB;
     s_verify := fun b => if String.eqb (TCBInfo b) "tcb-A" then Some outOfDate else None;
     s_epid := Ok [x0e];
     s_metrics := true;
     s_nonce := "nonce-1" |}.

(** No bundle is accepted. *)
Definition allOutOfDate : Script :=
  {| s_pcs := true;
     s_keys := fun _ => [epidKey; ecdsaKey 1];
     s_cert := CertificationData_PCKCertificateChain [x30];
     s_fetch := fun _ => Ok bundleB;
     s_verify := fun _ => Some outOfDate;
     s_epid := Ok [x0e];
     s_metrics := true;
     s_nonce := "nonce-1" |}.

(** The driver state at a later time (the clock shows the world). *)
Definition st_at (w : nat) : St nat :=
  {| world := w; trace := []; logs := []; metrics := noMetrics;
     serviceStore := ∅; nextRef := 1%nat |}.

Definition quote0 : Quote :=
  {| ReportData := [x2a];
     Signature := SigECDSA_P256
       {| AttestationPublicKey := [x04];
          CertData := CertificationData_PCKCertificateChain [x30] |} |}.

(** What a run of the bundle selection shows: the result, the bundle the
    cache object holds afterwards, and the calls made. *)
Definition observe (out : result (option TCBBundle) * tcbCache * St nat)
  : result (option TCBBundle) * option TCBBundle * list event :=
  (out.1.1, entry_bundle <$> (entries out.1.2 !! fmspc0), trace out.2).

Definition wk0 : Worker (W := nat) :=
  {| w_ts := tsECDSA; w_st := st0; tickerResets := 0%nat; attests := 0%nat;
     status := Running |}.

End Sample.

(** ** Changing the nonce the enclave answers *)

(** The reply of the enclave with the nonce of its [RakReport] response
    replaced. *)
Definition map_nonce (f : string -> string) (b : Body) : Body :=
  {| RuntimeCapabilityTEERakReportResponse :=
       match RuntimeCapabilityTEERakReportResponse b with
       | Some r => Some {| RakPub := RakPub r; RekPub := RekPub r;
                           Report := Report r; Nonce := f (Nonce r) |}
       | None => None
       end;
     RuntimeCapabilityTEERakQuoteResponse := RuntimeCapabilityTEERakQuoteResponse b |}.

Definition map_result {A B} (f : A -> B) (r : result A) : result B :=
  match r with
  | Ok a => Ok (f a)
  | Err e => Err e
  | Panic p => Panic p
  end.

(** The same collaborators, except that the enclave answers the nonce
    [f n] wherever it answered [n]. *)
Definition with_nonce {W} (f : string -> string) (env : Env W) : Env W :=
  {| ConsensusParams := ConsensusParams env;
     GetAttestationKeyIDs := GetAttestationKeyIDs env;
     GetTargetInfo := GetTargetInfo env;
     GetQuoteEx := GetQuoteEx env;
     getQuotePolicies := getQuotePolicies env;
     GetTCBBundle := GetTCBBundle env;
     ConnCall := fun req w =>
       let '(w', r) := ConnCall env req w in (w', map_result (map_nonce f) r);
     EPID_Init := EPID_Init env;
     EPID_Update := EPID_Update env;
     UnmarshalBinary := UnmarshalBinary env;
     NewMockQuote := NewMockQuote env;
     VerifyPCK := VerifyPCK env;
     QuoteVerify := QuoteVerify env;
     cbor_Marshal := cbor_Marshal env;
     Namespace_String := Namespace_String env;
     LatestSGXAttestationVersion := LatestSGXAttestationVersion env;
     metricsEnabled := metricsEnabled env;
     Now := Now env |}.

Section Frames.
Context {W : Type}.

(** What the attestation code leaves alone in the driver state: the
    metrics, the object identities handed out, and the updated-capability
    events emitted. *)
Definition quiet (st st' : St W) : Prop :=
  metrics st' = metrics st /\ emitted st' = emitted st.

(** What [Update] leaves alone in an ECDSA state: everything but the
    entries of the cache object. *)
Definition same_ecdsa_identity (ec ec' : teeStateECDSA) : Prop :=
  ec_common ec' = ec_common ec /\
  ec_key ec' = ec_key ec /\
  (cacheRef <$> ec_tcbCache ec') = (cacheRef <$> ec_tcbCache ec).

End Frames.

(** ** Notions used by the statements *)

Inductive implKind := KindECDSA | KindEPID.

#[global] Instance implKind_eq_dec : EqDecision implKind.
Proof. solve_decision. Defined.

Definition kind_of (i : teeStateImpl) : implKind :=
  match i with ImplECDSA _ => KindECDSA | ImplEPID _ => KindEPID end.

(** Which implementation a TEE state holds, if any. *)
Definition teeState_kind (ts : teeState) : option implKind := kind_of <$> impl ts.

(** The ECDSA key held by a TEE state. *)
Definition teeState_key (ts : teeState) : option AttestationKeyID :=
  match impl ts with
  | Some (ImplECDSA ec) => ec_key ec
  | _ => None
  end.

(** The identity of the cache object held by a TEE state. *)
Definition teeState_cacheRef (ts : teeState) : option nat :=
  match impl ts with
  | Some (ImplECDSA ec) => cacheRef <$> ec_tcbCache ec
  | _ => None
  end.

(** The metrics sentence of section 7 at one Update: performed goes up by
    one whatever the outcome, and with it exactly one of successful and
    failed, failed exactly when the Update returned an error. *)
Definition counted_once {W} (env : Env W) (report : Bytes) (nonce : string)
    (ts : teeState) (st : St W) : Prop :=
  let out := teeState_update env report nonce (ts, st) in
  let runtime := Namespace_String env (runtimeID ts) in
  let m := metrics st in
  let m' := metrics out.2.2 in
  counter (teeAttestationsPerformed m') runtime
    = S (counter (teeAttestationsPerformed m) runtime) /\
  match out.1 with
  | Err _ =>
      counter (teeAttestationsFailed m') runtime
        = S (counter (teeAttestationsFailed m) runtime) /\
      counter (teeAttestationsSuccessful m') runtime
        = counter (teeAttestationsSuccessful m) runtime
  | _ =>
      counter (teeAttestationsSuccessful m') runtime
        = S (counter (teeAttestationsSuccessful m) runtime) /\
      counter (teeAttestationsFailed m') runtime
        = counter (teeAttestationsFailed m) runtime
  end.

Section MoreFrames.
Context {W : Type}.

(** What one attestation leaves alone: the events emitted, and the
    runtime identifier, the version and the kind of implementation of the
    TEE state. *)
Definition attest_frame (s s' : teeState * St W) : Prop :=
  emitted s'.2 = emitted s.2 /\
  runtimeID s'.1 = runtimeID s.1 /\
  version s'.1 = version s.1 /\
  teeState_kind s'.1 = teeState_kind s.1.

End MoreFrames.

(** ** The claims that fail, as propositions *)

(** C5 as stated: an [init] run in which the registry supports PCS does
    not select EPID. *)
Definition registry_supports_PCS {W} (env : Env W) (st : St W) : bool :=
  match (ConsensusParams env (world st)).2 with
  | Ok regParams => negb (pcs_unsupported regParams)
  | _ => false
  end.

Definition epid_only_without_pcs {W} (env : Env W) (rid : Namespace) (ver : Version)
    (st : St W) : Prop :=
  let ts := {| runtimeID := rid; version := ver; impl := None |} in
  registry_supports_PCS env st = true ->
  teeState_kind (teeState_init env (ts, st)).2.1 <> Some KindEPID.

(** C4 as stated: an attestation after the initialisation changes neither
    the selected key nor the cache object of the TEE state. *)
Definition attest_keeps_state {W} (env : Env W) (rid : Namespace) (ver : Version)
    (st0 : St W) : Prop :=
  forall ts st,
    sgxProvisioner_initCapabilityTEE env rid ver st0 = (Ok ts, st) ->
    let out := sgxProvisioner_updateCapabilityTEE env (ts, st) in
    teeState_key out.2.1 = teeState_key ts /\
    teeState_cacheRef out.2.1 = teeState_cacheRef ts.

(** The TCB bundles the enclave was sent in [RakQuote] requests. *)
Definition sent_bundles (evs : list event) : list TCBBundle :=
  flat_map (fun e =>
    match e with
    | EvConnCall (RuntimeCapabilityTEERakQuoteRequest q) =>
        match Quote_PCS q with
        | Some qb => [QB_TCB qb]
        | None => []
        end
    | _ => []
    end) evs.

(** The bundles held by the TCB cache of the host. *)
Definition cached_bundles (store : gmap FMSPC TCBCacheEntry) : list TCBBundle :=
  entry_bundle <$> (map_to_list store).*2.

(** C9 as stated, in its part on the TCB cache: the bundle the mock
    Update sends to the enclave went through the TCB cache, so the cache
    holds it. *)
Definition mock_uses_cache {W} (env : Env W) (report : Bytes) (nonce : string)
    (st : St W) : Prop :=
  let out := teeStateMock_Update env report nonce (tt, st) in
  forall b, b ∈ sent_bundles (trace out.2.2) -> b ∈ cached_bundles (serviceStore out.2.2).

(** ** Calls made by a computation *)

(** The calls a computation has added to the trace of [st]. *)
Definition calls_made {W} (st st' : St W) : list event :=
  drop (length (trace st)) (trace st').

(** The requests sent to the enclave among some calls. *)
Definition conn_requests (evs : list event) : list Request :=
  flat_map (fun e => match e with EvConnCall req => [req] | _ => [] end) evs.

(** The quotes of the [RakQuote] requests among some calls. *)
Definition rak_quotes (evs : list event) : list SgxQuote :=
  flat_map (fun e =>
    match e with
    | EvConnCall (RuntimeCapabilityTEERakQuoteRequest q) => [q]
    | _ => []
    end) evs.

(** The calls one [teeStateECDSA.Update] can make, in their order: the
    quote from AESM, the quote policy, at most one TCB bundle from Intel
    PCS, at most one [RakQuote] request. *)
Definition update_call_shape (made : list event) : bool :=
  match made with
  | [EvGetQuoteEx _ _] => true
  | [EvGetQuoteEx _ _; EvGetQuotePolicies] => true
  | [EvGetQuoteEx _ _; EvGetQuotePolicies; EvGetTCBBundle _] => true
  | [EvGetQuoteEx _ _; EvGetQuotePolicies;
     EvConnCall (RuntimeCapabilityTEERakQuoteRequest _)] => true
  | [EvGetQuoteEx _ _; EvGetQuotePolicies; EvGetTCBBundle _;
     EvConnCall (RuntimeCapabilityTEERakQuoteRequest _)] => true
  | _ => false
  end.

(** The calls one [teeStateECDSA.Init] can make. *)
Definition init_call_shape (made : list event) : bool :=
  match made with
  | [EvConsensusParameters] => true
  | [EvConsensusParameters; EvGetAttestationKeyIDs] => true
  | [EvConsensusParameters; EvGetAttestationKeyIDs; EvGetTargetInfo _] => true
  | _ => false
  end.



Section HostInitializer.
Context {W : Type} (env : Env W).


End HostInitializer.

(** ** Notions for the worker and the metrics *)

(** The counters of every runtime add up: performed is successful plus
    failed. *)
Definition balanced (m : Metrics) : Prop :=
  forall runtime,
    counter (teeAttestationsPerformed m) runtime
    = (counter (teeAttestationsSuccessful m) runtime
       + counter (teeAttestationsFailed m) runtime)%nat.

(** A relation on states kept by every step of a computation. *)
Definition keeps {S A} (R : S -> S -> Prop) (m : M S A) : Prop :=
  forall s, R s (m s).2.

(** Balanced metrics stay balanced from one state to the next. *)
Definition balance_kept {W} (s s' : teeState * St W) : Prop :=
  balanced (metrics s.2) -> balanced (metrics s'.2).

(** ** The host around the provisioner: files, devices and the sandbox *)

#[global] Instance byte_eq_decision : EqDecision byte := Byte.byte_eq_dec.

(** [os.FileMode], a 32-bit word; [os.ModeDevice] is [1 << (32 - 1 - 5)]. *)
Definition FileMode := N.
Definition ModeDevice : FileMode := N.shiftl 1 26.

(** The part of the file system the provisioner reads: [fs_Stat fn] is
    the mode answered by [os.Stat(fn)] or its error, [fs_ReadFile] is
    [os.ReadFile]. *)
Record HostFS := mkFS {
  fs_Stat : string -> result FileMode;
  fs_ReadFile : string -> result Bytes;
}.

(** [sigstruct.Sigstruct]: the field read here. *)
Record Sigstruct := mkSigstruct { EnclaveHash : Bytes }.

(** The SGX library calls of [loadEnclaveBinaries]:
    [MrEnclave.FromSgxsBytes], [sigstruct.Verify] (public key and parsed
    SIGSTRUCT), [sigstruct.UnsafeDebugForEnclave] and
    [cmdFlags.DebugDontBlameOasis()]; and [filepath.Join] on two
    elements. *)
Record SgxLib := mkSgxLib {
  FromSgxsBytes : Bytes -> result Bytes;
  sigstruct_Verify : Bytes -> result (Bytes * Sigstruct);
  UnsafeDebugForEnclave : Bytes -> result Bytes;
  DebugDontBlameOasis : bool;
  filepath_Join : string -> string -> string;
}.

(** [RuntimeExtra]. *)
Record RuntimeExtra := mkRuntimeExtra {
  SignaturePath : string;
  UnsafeDebugGenerateSigstruct : bool;
}.

(** The interface value [rtCfg.Extra]: a [*RuntimeExtra] (possibly nil)
    or anything else. *)
Inductive hostExtra :=
| ExtraRuntime (p : option RuntimeExtra)
| ExtraOther.

(** [host.Config]: the fields read here. *)
Record hostConfig := mkHostConfig {
  Bundle_Path : string;
  Manifest_ID : Namespace;
  Manifest_Name : string;
  Extra : hostExtra;
}.

(** [Config]: the fields read here. *)
Record Config := mkConfig {
  LoaderPath : string;
  SandboxBinaryPath : string;
  InsecureNoSandbox : bool;
}.

(** [process.Config]; [BindData] holds the bytes behind each reader, the
    log wrapper is given by its two labels. *)
Record processConfig := mkProcessConfig {
  proc_Path : string;
  proc_Args : list string;
  proc_BindRW : gmap string string;
  proc_BindDev : gmap string string;
  proc_BindData : gmap string Bytes;
  proc_SandboxBinaryPath : string;
  proc_LogWrapper : Namespace * string;
}.

Definition aesmdSocketPath : string := "/var/run/aesmd/aesm.socket".
Definition sandboxMountRuntime : string := "/runtime".
Definition sandboxMountSignature : string := "/runtime.sig".

Definition sgxDevices : list string :=
  ["/dev/sgx_enclave"; "/dev/sgx/enclave"; "/dev/sgx"; "/dev/isgx"].

Section Sandbox.
Context (fs : HostFS) (lib : SgxLib).

(** The loop of [discoverSGXDevice]. *)
Fixpoint discoverSGXDevice_loop (devs : list string) : option string :=
  match devs with
  | [] => None
  | dev :: rest =>
      match fs_Stat fs dev with
      | Ok mode =>
          if negb (N.land mode ModeDevice =? 0)%N then Some dev
          else discoverSGXDevice_loop rest
      | _ => discoverSGXDevice_loop rest
      end
  end.

(** [sgxProvisioner.discoverSGXDevice]. *)
Definition discoverSGXDevice : result string :=
  match discoverSGXDevice_loop sgxDevices with
  | Some dev => Ok dev
  | None => Err (Errorf "no SGX device was found on this system" [])
  end.

(** The log of the provisioner is the state of these functions. *)
Definition logw (l : level) (m : string) : M (list logEntry) unit :=
  fun lg => (Ok tt, lg ++ [mkLog l m]).

(** [sgxProvisioner.loadEnclaveBinaries]. *)
Definition loadEnclaveBinaries (rtCfg : hostConfig) : M (list logEntry) (Bytes * Bytes) :=
  let* sgxs := wrap "failed to load enclave: %w" (pure (fs_ReadFile fs (Bundle_Path rtCfg))) in
  let* enclaveHash :=
    wrap "failed to derive EnclaveHash: %w" (pure (FromSgxsBytes lib sgxs)) in
  (* If the path to an existing SIGSTRUCT is provided, load it. *)
  match Extra rtCfg with
  | ExtraOther => throw (Errorf "sgx enclave configuration not available" [])
  | ExtraRuntime None => fun lg => (Panic "nil pointer dereference", lg)
  | ExtraRuntime (Some rtExtra) =>
      let* sig :=
        if negb (String.eqb (SignaturePath rtExtra) "") then
          wrap "failed to load SIGSTRUCT: %w"
               (pure (fs_ReadFile fs (SignaturePath rtExtra)))
        else if UnsafeDebugGenerateSigstruct rtExtra && DebugDontBlameOasis lib then
          let* _ := logw Warn "generating dummy enclave SIGSTRUCT" in
          wrap "failed to generate debug SIGSTRUCT: %w"
               (pure (UnsafeDebugForEnclave lib sgxs))
        else
          throw (Errorf "enclave SIGSTRUCT not available" []) in
      let* verified :=
        wrap "failed to validate SIGSTRUCT: %w" (pure (sigstruct_Verify lib sig)) in
      if negb (bool_decide (EnclaveHash verified.2 = enclaveHash)) then
        throw (Errorf "enclave/SIGSTRUCT mismatch" [])
      else
        ret (sgxs, sig)
  end.

(** [sgxProvisioner.getSandboxConfig]; the map literals are built in the
    order of their elements. *)
Definition getSandboxConfig (cfg : Config) (rtCfg : hostConfig)
    (socketPath runtimeDir : string) : M (list logEntry) processConfig :=
  let runtimePath :=
    if InsecureNoSandbox cfg then filepath_Join lib runtimeDir sandboxMountRuntime
    else sandboxMountRuntime in
  let signaturePath :=
    if InsecureNoSandbox cfg then filepath_Join lib runtimeDir sandboxMountSignature
    else sandboxMountSignature in
  let* loaded :=
    wrap "host/sgx: failed to load enclave/signature: %w" (loadEnclaveBinaries rtCfg) in
  let* sgxDev := wrap "host/sgx: %w" (pure discoverSGXDevice) in
  let* _ := logw Info "found SGX device" in
  ret {| proc_Path := LoaderPath cfg;
         proc_Args := ["--host-socket"; socketPath; "--type"; "sgxs";
                       "--signature"; signaturePath; runtimePath];
         proc_BindRW := {[ aesmdSocketPath := "/var/run/aesmd/aesm.socket" ]};
         proc_BindDev := {[ sgxDev := sgxDev ]};
         proc_BindData := <[signaturePath := loaded.2]> (<[runtimePath := loaded.1]> ∅);
         proc_SandboxBinaryPath := SandboxBinaryPath cfg;
         proc_LogWrapper := (Manifest_ID rtCfg, Manifest_Name rtCfg) |}.

End Sandbox.

(** *** Registration of the metrics (common/metrics.go) *)

(** The state behind [InitMetrics]: the Prometheus registry and whether
    [metricsOnce] has run. *)
Record PromState (R : Type) := mkProm {
  registry : R;
  metricsOnce : bool;
}.
Arguments mkProm {R}.
Arguments registry {R}.
Arguments metricsOnce {R}.

Definition teeCollectors : list string :=
  ["oasis_tee_attestations_performed";
   "oasis_tee_attestations_successful";
   "oasis_tee_attestations_failed"].

(** [InitMetrics]; [enabled] is [metrics.Enabled()], [MustRegister] is
    [prometheus.MustRegister], which may panic.  [sync.Once] counts a
    panicking call as done. *)
Definition InitMetrics {R : Type} (MustRegister : list string -> M R unit)
    (enabled : bool) : M (PromState R) unit :=
  fun p =>
    if negb enabled then (Ok tt, p)
    else if metricsOnce p then (Ok tt, p)
    else
      let out := MustRegister teeCollectors (registry p) in
      (out.1, {| registry := out.2; metricsOnce := true |}).

(** A sequence of [InitMetrics] calls, each with the value of
    [metrics.Enabled()] at that call. *)
Definition InitMetrics_calls {R : Type} (MustRegister : list string -> M R unit)
    (calls : list bool) (p : PromState R) : PromState R :=
  foldl (fun q enabled => (InitMetrics MustRegister enabled q).2) p calls.

(** Whether [os.Stat] answers a device for a path: bit 26 of the mode. *)
Definition is_sgx_device (fs : HostFS) (dev : string) : bool :=
  match fs_Stat fs dev with
  | Ok mode => N.testbit mode 26
  | _ => false
  end.

(** ** Further sample hosts *)

Module Cases.

(** The registry has the PCS feature switched off. *)
Definition registryNoPCS : Sample.Script :=
  {| Sample.s_pcs := false;
     Sample.s_keys := fun _ => [Sample.epidKey; Sample.ecdsaKey 1];
     Sample.s_cert := CertificationData_PCKCertificateChain [x30];
     Sample.s_fetch := fun _ => Ok Sample.bundleB;
     Sample.s_verify := fun _ => None;
     Sample.s_epid := Ok [x0e];
     Sample.s_metrics := true;
     Sample.s_nonce := "nonce-1" |}.

End Cases.

(** * Runtime bundles (package bundle) *)

Module bundle.

(** [hash.Hash]. *)
Definition Hash := Bytes.

(** [component.ID]: the kind and the name of a component. *)
Definition ID : Type := string * string.

(** The SGX and TDX metadata of a component: the file names read here. *)
Record SGXMetadata := mkSGXMetadata {
  sgx_Executable : string;
  sgx_Signature : string;
}.

Record TDXMetadata := mkTDXMetadata {
  tdx_Firmware : string;
  tdx_Kernel : string;
  tdx_InitRD : string;
  tdx_Stage2Image : string;
}.

(** [Component]: the fields read here; [comp_SGX] and [comp_TDX] are
    pointers. *)
Record Component := mkComponent {
  comp_Kind : string;
  comp_Name : string;
  comp_Executable : string;
  comp_SGX : option SGXMetadata;
  comp_TDX : option TDXMetadata;
}.

(** [Data]: [bytesData] and [fileData]. *)
Inductive Data :=
| bytesData (b : Bytes)
| fileData (f : string).

(** [Manifest]: the digests, a map that may be nil, and the other fields,
    which only the manifest's own methods read. *)
Record Manifest (F : Type) := mkManifest {
  man_fields : F;
  Digests : option (gmap string Hash);
}.
Arguments mkManifest {F}.
Arguments man_fields {F}.
Arguments Digests {F}.

(** [Bundle]: the manifest pointer and the data map, both possibly nil. *)
Record Bundle (F : Type) := mkBundle {
  bnd_Manifest : option (Manifest F);
  bnd_Data : option (gmap string Data);
}.
Arguments mkBundle {F}.
Arguments bnd_Manifest {F}.
Arguments bnd_Data {F}.

(** [sgx.EnclaveIdentity]. *)
Record EnclaveIdentity := mkEnclaveIdentity {
  MrEnclave : Bytes;
  MrSigner : Bytes;
}.

(** What the package calls outside this file.  [os_Open f] is
    [os.Open(f)] followed by reading the file to its end: the outer result
    is that of opening, the inner one that of reading.  [hash_of] is the
    hash of the bytes read.  The manifest's methods are total on a manifest
    that is not nil. *)
Record Deps (F : Type) := mkDeps {
  os_Open : string -> result (result Bytes);
  hash_of : Bytes -> Hash;
  filepath_Dir : string -> string;
  manifestName : string;
  Manifest_Validate : Manifest F -> result unit;
  GetAvailableComponents : Manifest F -> gmap ID Component;
  GetComponentByID : Manifest F -> ID -> option Component;
  Component_ID : Component -> ID;
  ID_String : ID -> string;
  MrEnclave_String : Bytes -> string;
  FromPublicKey : Bytes -> result Bytes;
  FortanixDummyMrSigner : Bytes;
}.
Arguments os_Open {F}.
Arguments hash_of {F}.
Arguments filepath_Dir {F}.
Arguments manifestName {F}.
Arguments Manifest_Validate {F}.
Arguments GetAvailableComponents {F}.
Arguments GetComponentByID {F}.
Arguments Component_ID {F}.
Arguments ID_String {F}.
Arguments MrEnclave_String {F}.
Arguments FromPublicKey {F}.
Arguments FortanixDummyMrSigner {F}.

(** An entry of [needFiles] in [Validate]. *)
Record bundleFile := mkBundleFile {
  descr : string;
  fn : string;
  optional : bool;
}.

(** A loop that returns the first error of its body. *)
Fixpoint first_error {A} (body : A -> result unit) (l : list A) : result unit :=
  match l with
  | [] => Ok tt
  | a :: rest =>
      match body a with
      | Ok _ => first_error body rest
      | other => other
      end
  end.

Section Bundle.
Context {F : Type} (lib : SgxLib) (deps : Deps F).

(** [bnd.Data[fn]] and [bnd.Manifest.Digests[fn]]; a nil map has no
    entry. *)
Definition data_lookup (bnd : Bundle F) (fn : string) : option Data :=
  match bnd_Data bnd with
  | Some files => files !! fn
  | None => None
  end.

Definition digest_lookup (m : Manifest F) (fn : string) : option Hash :=
  match Digests m with
  | Some digests => digests !! fn
  | None => None
  end.

(** [Data.Open] with the reading of what it has opened. *)
Definition Data_Open (d : Data) : result (result Bytes) :=
  match d with
  | bytesData b => Ok (Ok b)
  | fileData f => os_Open deps f
  end.

(** [ReadAllData]. *)
Definition ReadAllData (d : Data) : result Bytes :=
  match Data_Open d with
  | Ok read => read
  | Err e => Err e
  | Panic p => Panic p
  end.

(** [HashAllData]. *)
Definition HashAllData (d : Data) : result Hash :=
  match Data_Open d with
  | Ok (Ok b) => Ok (hash_of deps b)
  | Ok (Err e) => Err e
  | Ok (Panic p) => Panic p
  | Err e => Err e
  | Panic p => Panic p
  end.

(** [Bundle.Add]. *)
Definition Add (fn : string) (data : Data) : M (Bundle F) unit :=
  fun bnd =>
    if negb (String.eqb (filepath_Dir deps fn) ".") then
      (Err (Errorf "runtime/bundle: invalid filename for add: '%s'" [fn]), bnd)
    else
      match bnd_Manifest bnd with
      | None => (Panic "nil pointer dereference", bnd)
      | Some m =>
          let digests := match Digests m with Some ds => ds | None => ∅ end in
          let files := match bnd_Data bnd with Some fs => fs | None => ∅ end in
          match HashAllData data with
          | Ok h =>
              (Ok tt,
               {| bnd_Manifest :=
                    Some {| man_fields := man_fields m;
                            Digests := Some (<[fn := h]> digests) |};
                  bnd_Data := Some (<[fn := data]> files) |})
          | Err e =>
              (Err (Wrapf "runtime/bundle: failed to hash data: %w" [] e),
               {| bnd_Manifest :=
                    Some {| man_fields := man_fields m; Digests := Some digests |};
                  bnd_Data := Some files |})
          | Panic p =>
              (Panic p,
               {| bnd_Manifest :=
                    Some {| man_fields := man_fields m; Digests := Some digests |};
                  bnd_Data := Some files |})
          end
      end.

(** [Bundle.ResetManifest]. *)
Definition ResetManifest (bnd : Bundle F) : Bundle F :=
  {| bnd_Manifest := bnd_Manifest bnd;
     bnd_Data := delete (manifestName deps) <$> bnd_Data bnd |}.

(** [Bundle.MrEnclave]. *)
Definition Bundle_MrEnclave (bnd : Bundle F) (id : ID) : result Bytes :=
  match bnd_Manifest bnd with
  | None => Panic "nil pointer dereference"
  | Some m =>
      match GetComponentByID deps m id with
      | None =>
          Err (Errorf "runtime/bundle: component '%s' not available" [ID_String deps id])
      | Some comp =>
          match comp_SGX comp with
          | None =>
              Err (Errorf "runtime/bundle: no SGX metadata for '%s'" [ID_String deps id])
          | Some sgx =>
              match data_lookup bnd (sgx_Executable sgx) with
              | None =>
                  Err (Errorf "runtime/bundle: no SGX executable for '%s'"
                              [ID_String deps id])
              | Some d =>
                  match Data_Open d with
                  | Err e =>
                      Err (Wrapf "runtime/bundle: failed to open SGX executable for '%s': %w"
                                 [ID_String deps id] e)
                  | Panic p => Panic p
                  | Ok read =>
                      let derived :=
                        match read with
                        | Ok b => FromSgxsBytes lib b
                        | other => other
                        end in
                      match derived with
                      | Err e =>
                          Err (Wrapf
                                 "runtime/bundle: failed to derive SGX MRENCLAVE for '%s': %w"
                                 [ID_String deps id] e)
                      | other => other
                      end
                  end
              end
          end
      end
  end.

(** [Bundle.MrSigner]. *)
Definition Bundle_MrSigner (bnd : Bundle F) (id : ID) : result Bytes :=
  match bnd_Manifest bnd with
  | None => Panic "nil pointer dereference"
  | Some m =>
      match GetComponentByID deps m id with
      | None =>
          Err (Errorf "runtime/bundle: component '%s' not available" [ID_String deps id])
      | Some comp =>
          match comp_SGX comp with
          | None =>
              Err (Errorf "runtime/bundle: no SGX metadata for '%s'" [ID_String deps id])
          | Some sgx =>
              if String.eqb (sgx_Signature sgx) "" && DebugDontBlameOasis lib then
                (* Use dummy signer (only in tests). *)
                Ok (FortanixDummyMrSigner deps)
              else
                match data_lookup bnd (sgx_Signature sgx) with
                | None =>
                    Err (Errorf "runtime/bundle: no SGX signature for '%s'"
                                [ID_String deps id])
                | Some d =>
                    match ReadAllData d with
                    | Err e =>
                        Err (Wrapf
                               "runtime/bundle: failed to read SGX signature for '%s': %w"
                               [ID_String deps id] e)
                    | Panic p => Panic p
                    | Ok b =>
                        match sigstruct_Verify lib b with
                        | Err e => Err e
                        | Panic p => Panic p
                        | Ok verified => FromPublicKey deps verified.1
                        end
                    end
                end
          end
      end
  end.

(** [Bundle.EnclaveIdentity]. *)
Definition Bundle_EnclaveIdentity (bnd : Bundle F) (id : ID) : result EnclaveIdentity :=
  match Bundle_MrEnclave bnd id with
  | Err e => Err e
  | Panic p => Panic p
  | Ok mrEnclave =>
      match Bundle_MrSigner bnd id with
      | Err e => Err e
      | Panic p => Panic p
      | Ok mrSigner => Ok {| MrEnclave := mrEnclave; MrSigner := mrSigner |}
      end
  end.

(** [Bundle.verifySgxSignature]. *)
Definition verifySgxSignature (bnd : Bundle F) (comp : Component) : result unit :=
  match comp_SGX comp with
  | None => Ok tt
  | Some sgx =>
      if String.eqb (sgx_Signature sgx) "" then Ok tt
      else
        let id := Component_ID deps comp in
        match Bundle_MrEnclave bnd id with
        | Err e => Err e
        | Panic p => Panic p
        | Ok mrEnclave =>
            match data_lookup bnd (sgx_Signature sgx) with
            | None =>
                Err (Errorf "runtime/bundle: no SGX signature for '%s'" [ID_String deps id])
            | Some d =>
                match ReadAllData d with
                | Err e =>
                    Err (Wrapf "runtime/bundle: failed to read SGX signature for '%s': %w"
                               [ID_String deps id] e)
                | Panic p => Panic p
                | Ok b =>
                    match sigstruct_Verify lib b with
                    | Err e =>
                        Err (Wrapf
                               "runtime/bundle: failed to verify sigstruct for '%s': %w"
                               [ID_String deps id] e)
                    | Panic p => Panic p
                    | Ok verified =>
                        if negb (bool_decide (EnclaveHash verified.2 = mrEnclave)) then
                          Err (Errorf
                                 "runtime/bundle: sigstruct for '%s' does not match SGXS (got: %s expected: %s)"
                                 [ID_String deps id;
                                  MrEnclave_String deps (EnclaveHash verified.2);
                                  MrEnclave_String deps mrEnclave])
                        else Ok tt
                    end
                end
            end
        end
  end.

(** The files [Validate] needs for one component. *)
Definition needFiles_of (id : ID) (comp : Component) : list bundleFile :=
  [{| descr := ID_String deps id ++ ": ELF executable";
      fn := comp_Executable comp; optional := true |}]
  ++ match comp_SGX comp with
     | Some sgx =>
         [{| descr := ID_String deps id ++ ": SGX executable";
             fn := sgx_Executable sgx; optional := false |};
          {| descr := ID_String deps id ++ ": SGX signature";
             fn := sgx_Signature sgx; optional := true |}]
     | None => []
     end
  ++ match comp_TDX comp with
     | Some tdx =>
         [{| descr := ID_String deps id ++ ": TDX virtual firmware";
             fn := tdx_Firmware tdx; optional := false |};
          {| descr := ID_String deps id ++ ": TDX kernel image";
             fn := tdx_Kernel tdx; optional := true |};
          {| descr := ID_String deps id ++ ": TDX initrd image";
             fn := tdx_InitRD tdx; optional := true |};
          {| descr := ID_String deps id ++ ": TDX VM stage 2 image";
             fn := tdx_Stage2Image tdx; optional := true |}]
     | None => []
     end.

(** The body of the loop over [needFiles]. *)
Definition check_file (bnd : Bundle F) (v : bundleFile) : result unit :=
  if String.eqb (fn v) "" then
    if optional v then Ok tt
    else Err (Errorf "runtime/bundle: missing %s in manifest" [descr v])
  else
    match data_lookup bnd (fn v) with
    | None => Err (Errorf "runtime/bundle: missing %s in bundle" [descr v])
    | Some _ => Ok tt
    end.

(** The body of the loop over [bnd.Data]. *)
Definition check_digest (m : Manifest F) (entry : string * Data) : result unit :=
  match HashAllData entry.2 with
  | Err e => Err (Wrapf "runtime/bundle: failed to read '%s': %w" [entry.1] e)
  | Panic p => Panic p
  | Ok h =>
      match digest_lookup m entry.1 with
      | None =>
          if String.eqb entry.1 (manifestName deps) then Ok tt
          else Err (Errorf "runtime/bundle: missing digest: '%s'" [entry.1])
      | Some mh =>
          if negb (bool_decide (h = mh)) then
            Err (Errorf "runtime/bundle: invalid digest: '%s'" [entry.1])
          else Ok tt
      end
  end.

(** [Bundle.Validate].  Go visits the entries of a map in an order of its
    choice: [comps1] and [comps2] are the orders in which the two loops
    over the available components visit them, [files] is the order of the
    loop over [bnd.Data]. *)
Definition Validate (comps1 : list (ID * Component)) (files : list (string * Data))
    (comps2 : list (ID * Component)) (bnd : Bundle F) : result unit :=
  match bnd_Manifest bnd with
  | None => Panic "nil pointer dereference"
  | Some m =>
      match Manifest_Validate deps m with
      | Err e => Err (Wrapf "runtime/bundle: malformed manifest: %w" [] e)
      | Panic p => Panic p
      | Ok _ =>
          let needFiles := flat_map (fun entry => needFiles_of entry.1 entry.2) comps1 in
          match first_error (check_file bnd) needFiles with
          | Ok _ =>
              match first_error (check_digest m) files with
              | Ok _ => first_error (fun entry => verifySgxSignature bnd entry.2) comps2
              | other => other
              end
          | other => other
          end
      end
  end.


(** Every file of the bundle has the digest the manifest gives for it;
    the serialized manifest itself may have none. *)
Definition digests_match (bnd : Bundle F) : Prop :=
  forall name d, data_lookup bnd name = Some d ->
    exists h, HashAllData d = Ok h /\
      match bnd_Manifest bnd with
      | Some m =>
          digest_lookup m name = Some h \/
          (digest_lookup m name = None /\ name = manifestName deps)
      | None => False
      end.

(** Every file a component names is in the bundle; the SGX executable and
    the TDX firmware have to be named. *)
Definition files_present (bnd : Bundle F) (id : ID) (comp : Component) : Prop :=
  Forall (fun v => check_file bnd v = Ok tt) (needFiles_of id comp).


End Bundle.

End bundle.

(** ** A sample bundle *)

Module BundleCases.
Import bundle.

(** An SGX library for samples: the enclave hash of an SGXS is its bytes,
    a SIGSTRUCT is a key byte followed by the enclave hash it signs. *)
Definition lib0 : SgxLib :=
  {| FromSgxsBytes := fun b => Ok b;
     sigstruct_Verify := fun sig =>
       match sig with
       | pk :: signed => Ok ([pk], mkSigstruct signed)
       | [] => Err (ErrExternal "sigstruct: truncated")
       end;
     UnsafeDebugForEnclave := fun sgxs => Ok (x00 :: sgxs);
     DebugDontBlameOasis := false;
     filepath_Join := fun dir file => (dir ++ file)%string |}.

Definition ronlID : ID := ("ronl", "").

Definition ronl : Component :=
  {| comp_Kind := "ronl"; comp_Name := "";
     comp_Executable := "runtime.elf";
     comp_SGX := Some {| sgx_Executable := "runtime.sgxs";
                         sgx_Signature := "runtime.sig" |};
     comp_TDX := None |}.

(** The manifest has the single component [ronl]; no file exists outside
    the bundle, and the hash of a file is its content. *)
Definition deps0 : Deps unit :=
  {| os_Open := fun _ => Err (ErrExternal "open: no such file or directory");
     hash_of := fun b => b;
     filepath_Dir := fun _ => ".";
     manifestName := "META-INF/MANIFEST.MF";
     Manifest_Validate := fun _ => Ok tt;
     GetAvailableComponents := fun _ => {[ ronlID := ronl ]};
     GetComponentByID := fun _ id => if decide (id = ronlID) then Some ronl else None;
     Component_ID := fun comp => (comp_Kind comp, comp_Name comp);
     ID_String := fun id => id.1;
     MrEnclave_String := fun _ => "mrenclave";
     FromPublicKey := fun pk => Ok pk;
     FortanixDummyMrSigner := [x00] |}.

Definition elf : string * Data := ("runtime.elf", bytesData [x7f]).
Definition sgxs : string * Data := ("runtime.sgxs", bytesData [x2a]).
Definition sig : string * Data := ("runtime.sig", bytesData [x04; x2a]).

Definition manifest0 : Manifest unit :=
  {| man_fields := tt;
     Digests := Some {[ "runtime.elf" := [x7f];
                        "runtime.sgxs" := [x2a];
                        "runtime.sig" := [x04; x2a] ]} |}.

Definition data0 : gmap string Data := list_to_map [elf; sgxs; sig].

Definition bnd0 : Bundle unit :=
  {| bnd_Manifest := Some manifest0; bnd_Data := Some data0 |}.

End BundleCases.

(** * Facts *)

Section DriverFacts.
Context {W : Type} (env : Env W).

Lemma verifyBundle_fst quote policy ob which (st : St W) :
  (teeStateECDSA_verifyBundle env quote policy ob which st).1
  = verifyBundle_verdict env quote policy (Now env (world st)) which ob.
Proof.
  unfold teeStateECDSA_verifyBundle, verifyBundle_verdict.
  repeat case_match; reflexivity.
Qed.

(** [verifyBundle] changes nothing but the log. *)
Lemma verifyBundle_snd quote policy ob which (st : St W) :
  let st' := (teeStateECDSA_verifyBundle env quote policy ob which st).2 in
  world st' = world st /\ trace st' = trace st /\ metrics st' = metrics st
  /\ serviceStore st' = serviceStore st /\ nextRef st' = nextRef st.
Proof.
  unfold teeStateECDSA_verifyBundle. repeat case_match; simpl; auto.
Qed.

(** A bundle passes [verifyBundle] exactly when [quote.Verify] accepts it. *)
Lemma verifyBundle_verdict_ok quote policy now which ob :
  verifyBundle_verdict env quote policy now which ob = None <->
  exists b, ob = Some b /\ QuoteVerify env quote policy now b = None.
Proof.
  unfold verifyBundle_verdict. split.
  - destruct ob as [b|]; [|discriminate].
    destruct (QuoteVerify env quote policy now b) eqn:Hv.
    + destruct (errors_As_TCB e); discriminate.
    + eauto.
  - intros (b & -> & ->). reflexivity.
Qed.


(** The selection stores a bundle only right after [quote.Verify]
    accepted it, and a failing selection leaves the cache as it was. *)
Lemma Update_tcbBundle_stores_verified quote policy fmspc tc (st : St W) :
  let out := Update_tcbBundle env quote policy fmspc tc st in
  let now := Now env (world out.2) in
  match out.1.1 with
  | Ok ob =>
      exists b, ob = Some b /\ QuoteVerify env quote policy now b = None /\
        ((out.1.2 = tc /\ serviceStore out.2 = serviceStore st) \/
         (out.1.2 = tcbCache_cache tc b fmspc now /\
          serviceStore out.2 = <[fmspc := new_entry b now]> (serviceStore st)))
  | _ => out.1.2 = tc /\ serviceStore out.2 = serviceStore st
  end.
Proof.
  cbv zeta.
  unfold Update_tcbBundle, Update_tcbBundle_cached, call,
    teeStateECDSA_verifyBundle, cache_store.
  cbv beta.
  destruct (tcbCache_check tc fmspc (Now env (world st))) as [cached refresh].
  destruct (GetTCBBundle env fmspc (world st)) as [w1 fetched] eqn:Hf.
  destruct refresh, fetched as [b|e|p], cached as [c|]; cbn;
    repeat (first [rewrite Hf | case_match]; cbn in *; simplify_eq);
    eauto 8.
Qed.

(** Unfolding of the monadic plumbing. *)
Ltac unfold_monad :=
  unfold bind, wrap, onSt, getR, setR, pure, throw, ret, call, time_Now,
    callEPID in *;
  cbv beta in *.



(** The collaborators of [teeStateECDSA.Update] other than the enclave
    connection do not see the nonce of the enclave's replies. *)
Lemma Update_tcbBundle_with_nonce f quote policy fmspc tc (st : St W) :
  Update_tcbBundle (with_nonce f env) quote policy fmspc tc st
  = Update_tcbBundle env quote policy fmspc tc st.
Proof. reflexivity. Qed.

Lemma ecdsa_Init_with_nonce f rid ver (s : teeStateECDSA * St W) :
  teeStateECDSA_Init (with_nonce f env) rid ver s = teeStateECDSA_Init env rid ver s.
Proof. reflexivity. Qed.

Lemma Update_rakQuote_with_nonce {R} f rawQuote b (s : R * St W) :
  Update_rakQuote (with_nonce f env) rawQuote b s = Update_rakQuote env rawQuote b s.
Proof.
  unfold Update_rakQuote. unfold_monad. destruct s as [r st]. cbn.
  destruct (ConnCall env _ (world st)) as [w' [a|e|p]]; reflexivity.
Qed.

Lemma ecdsa_Update_with_nonce f report nonce (s : teeStateECDSA * St W) :
  teeStateECDSA_Update (with_nonce f env) report nonce s
  = teeStateECDSA_Update env report nonce s.
Proof.
  unfold teeStateECDSA_Update, bind. destruct s as [ec st].
  change (getR (ec, st)) with (Ok ec, (ec, st)). cbv iota beta.
  change (GetQuoteEx (with_nonce f env)) with (GetQuoteEx env).
  destruct (wrap _ _ (ec, st)) as [[rawQuote| |] s1]; [|reflexivity..].
  change (UnmarshalBinary (with_nonce f env)) with (UnmarshalBinary env).
  destruct (wrap _ _ s1) as [[quote| |] s2]; [|reflexivity..].
  destruct (Signature quote) as [qs|]; [|reflexivity].
  destruct (CertData qs); [|reflexivity..].
  change (time_Now (with_nonce f env)) with (time_Now env).
  destruct (onSt _ s2) as [[now| |] s3]; [|reflexivity..].
  change (VerifyPCK (with_nonce f env)) with (VerifyPCK env).
  destruct (wrap _ _ s3) as [[pckInfo| |] s4]; [|reflexivity..].
  change (getQuotePolicies (with_nonce f env)) with (getQuotePolicies env).
  destruct (onSt _ s4) as [[policies| |] s5]; [|reflexivity..].
  change (Update_selectBundle (with_nonce f env)) with (Update_selectBundle env).
  destruct (Update_selectBundle _ _ _ _ s5) as [[[b|]| |] s6]; try reflexivity.
  apply Update_rakQuote_with_nonce.
Qed.

(** C10. The result of [teeStateECDSA.Update] does not depend on the
    nonce: for any two nonces the method returns the same result, the
    same TEE state and the same driver state (hence the same calls); and
    one whole attestation round on an ECDSA state is the same whatever
    nonce the enclave puts in its [RakReport] response. *)
Theorem ecdsa_update_nonce_independent report nonce1 nonce2 (f : string -> string)
    rid ver ec (st : St W) :
  teeStateECDSA_Update env report nonce1 (ec, st)
  = teeStateECDSA_Update env report nonce2 (ec, st) /\
  let ts := {| runtimeID := rid; version := ver; impl := Some (ImplECDSA ec) |} in
  sgxProvisioner_updateCapabilityTEE (with_nonce f env) (ts, st)
  = sgxProvisioner_updateCapabilityTEE env (ts, st).
Proof.
  split; [reflexivity|]. cbv zeta.
  unfold sgxProvisioner_updateCapabilityTEE, teeState_updateTargetInfo,
    teeStateImpl_Init, sgxProvisioner_updateTargetInfo, teeState_update,
    teeStateImpl_Update.
  unfold_monad. cbn [impl runtimeID version].
  change (teeStateECDSA_Init (with_nonce f env)) with (teeStateECDSA_Init env).
  destruct (teeStateECDSA_Init env rid ver (ec, st)) as [[targetInfo|e|p] [ec1 st1]];
    [|reflexivity..].
  cbn -[teeStateECDSA_Update].
  destruct (ConnCall env (RuntimeCapabilityTEERakInitRequest targetInfo) (world st1))
    as [w2 [b2|e2|p2]]; cbn -[teeStateECDSA_Update]; [|reflexivity..].
  destruct (ConnCall env RuntimeCapabilityTEERakReportRequest w2)
    as [w3 [b3|e3|p3]]; cbn -[teeStateECDSA_Update]; [|reflexivity..].
  destruct (RuntimeCapabilityTEERakReportResponse b3) as [rsp|];
    cbn -[teeStateECDSA_Update]; [|reflexivity].
  rewrite ecdsa_Update_with_nonce.
  change (teeStateECDSA_Update env (Report rsp) (f (Nonce rsp)))
    with (teeStateECDSA_Update env (Report rsp) (Nonce rsp)).
  destruct (teeStateECDSA_Update env (Report rsp) (Nonce rsp) _) as [[a|e|p] [ec4 st4]];
    reflexivity.
Qed.

Lemma quiet_refl (st : St W) : quiet st st.
Proof. split; reflexivity. Qed.

Lemma quiet_trans (a b c : St W) : quiet a b -> quiet b c -> quiet a c.
Proof. intros [? ?] [? ?]. split; congruence. Qed.

Lemma quiet_set_world w ev (st : St W) :
  is_emit ev = false -> quiet st (set_world w ev st).
Proof.
  intros He. split; [reflexivity|].
  unfold emitted. cbn. rewrite List.filter_app. cbn. rewrite He.
  apply app_nil_r.
Qed.

Lemma quiet_logf l m (st : St W) : quiet st (logf l m st).
Proof. split; reflexivity. Qed.

Lemma quiet_set_store m (st : St W) : quiet st (set_store m st).
Proof. split; reflexivity. Qed.

Lemma quiet_call {A} ev (f : W -> W * result A) (st : St W) :
  is_emit ev = false -> quiet st (call ev f st).2.
Proof.
  intros He. unfold call. destruct (f (world st)) as [w r]. cbn.
  apply quiet_set_world, He.
Qed.

Lemma quiet_verifyBundle quote policy ob which (st : St W) :
  quiet st (teeStateECDSA_verifyBundle env quote policy ob which st).2.
Proof.
  unfold teeStateECDSA_verifyBundle.
  repeat case_match; cbn; auto using quiet_refl, quiet_logf.
Qed.

Create HintDb quiet.
#[local] Hint Resolve quiet_refl quiet_logf quiet_set_store quiet_verifyBundle : quiet.

(** The bundle selection keeps the identity of the cache object and is
    quiet. *)
Lemma Update_tcbBundle_frame quote policy fmspc tc (st : St W) :
  let out := Update_tcbBundle env quote policy fmspc tc st in
  cacheRef out.1.2 = cacheRef tc /\ nextRef out.2 = nextRef st /\ quiet st out.2.
Proof.
  cbv zeta.
  unfold Update_tcbBundle, Update_tcbBundle_cached, call,
    teeStateECDSA_verifyBundle, cache_store, quiet, emitted.
  cbv beta.
  destruct (tcbCache_check tc fmspc (Now env (world st))) as [cached refresh].
  destruct (GetTCBBundle env fmspc (world st)) as [w1 fetched] eqn:Hf.
  destruct refresh, fetched as [b|e|p], cached as [c|]; cbn;
    repeat (first [rewrite Hf | case_match]; cbn in *; simplify_eq);
    cbn; rewrite ?List.filter_app; cbn; rewrite ?app_nil_r; repeat split; reflexivity.
Qed.

(** Closes frame goals once the final state is an explicit chain of
    updates of the initial one. *)
Ltac frame_done :=
  unfold quiet, emitted, same_ecdsa_identity; cbn;
  rewrite ?List.filter_app; cbn; rewrite ?app_nil_r;
  repeat match goal with
    | H : ec_tcbCache ?e = _ |- context [ec_tcbCache ?e] => rewrite H
    end;
  cbn; repeat split; try reflexivity; try congruence.

(** [teeStateECDSA.Update] keeps the key, the common part and the
    identity of the cache object, and is quiet. *)
Lemma ecdsa_Update_frame report nonce ec (st : St W) :
  let out := teeStateECDSA_Update env report nonce (ec, st) in
  same_ecdsa_identity ec out.2.1 /\ nextRef out.2.2 = nextRef st /\ quiet st out.2.2.
Proof.
  cbv zeta.
  unfold teeStateECDSA_Update, Update_selectBundle, Update_rakQuote.
  unfold_monad.
  repeat (case_match; cbn in *; simplify_eq); cbn;
    try match goal with
      | H : Update_tcbBundle env ?q ?p ?f ?t ?s = _ |- _ =>
          pose proof (Update_tcbBundle_frame q p f t s) as Hsel;
          cbv zeta in Hsel; rewrite H in Hsel; cbn in Hsel;
          destruct Hsel as (Href & Hnext & Hm & He);
          cbn in Hm; unfold emitted in He; cbn in He;
          rewrite ?List.filter_app in He; cbn in He; rewrite ?app_nil_r in He
      end;
    frame_done.
Qed.

(** [teeStateECDSA.Init] is quiet, stores nothing, and changes the
    receiver only when it succeeds. *)
Lemma ecdsa_Init_frame rid ver ec (st : St W) :
  let out := teeStateECDSA_Init env rid ver (ec, st) in
  quiet st out.2.2 /\ serviceStore out.2.2 = serviceStore st /\
  match out.1 with Ok _ => True | _ => out.2.1 = ec end.
Proof.
  cbv zeta. unfold teeStateECDSA_Init, newTcbCache. unfold_monad.
  repeat (case_match; cbn in *; simplify_eq); frame_done.
Qed.

(** A successful [teeStateECDSA.Init] (re)selects the key: the first
    ECDSA key of the list AESM has just answered; and it installs a new
    cache object over the persistent store. *)
Lemma ecdsa_Init_ok rid ver ec (st : St W) targetInfo ec' st' :
  teeStateECDSA_Init env rid ver (ec, st) = (Ok targetInfo, (ec', st')) ->
  exists w1 regParams w2 akeys key,
    ConsensusParams env (world st) = (w1, Ok regParams) /\
    pcs_unsupported regParams = false /\
    GetAttestationKeyIDs env w1 = (w2, Ok akeys) /\
    firstECDSAKey akeys = Some key /\
    ec' = {| ec_common := {| impl_runtimeID := rid; impl_version := ver |};
             ec_key := Some key;
             ec_tcbCache := Some {| cacheRef := nextRef st;
                                    entries := serviceStore st |} |} /\
    nextRef st' = S (nextRef st).
Proof.
  unfold teeStateECDSA_Init, newTcbCache. unfold_monad.
  intros H.
  repeat (case_match; cbn in *; simplify_eq).
  do 5 eexists. repeat split; eauto.
Qed.

Lemma counter_Inc runtime vec : counter (Inc runtime vec) runtime = S (counter vec runtime).
Proof. unfold counter, Inc. rewrite lookup_insert_eq. reflexivity. Qed.

Lemma counter_Inc_ne runtime other vec :
  runtime <> other -> counter (Inc runtime vec) other = counter vec other.
Proof. intros Hne. unfold counter, Inc. rewrite lookup_insert_ne; auto. Qed.

(** The implementation's [Update] behind the interface is quiet and keeps
    the kind of the implementation, the runtime identifier and the
    version; on ECDSA it keeps the key and the cache object. *)
Lemma impl_Update_frame i report nonce ts (st : St W) :
  let out := teeStateImpl_Update env i report nonce ts st in
  quiet st out.2.2 /\
  runtimeID out.2.1 = runtimeID ts /\ version out.2.1 = version ts /\
  teeState_kind out.2.1 = Some (kind_of i) /\
  match i with
  | ImplECDSA ec =>
      exists ec', impl out.2.1 = Some (ImplECDSA ec') /\ same_ecdsa_identity ec ec'
  | ImplEPID _ => True
  end.
Proof.
  cbv zeta. destruct i as [ec|ep]; unfold teeStateImpl_Update.
  - pose proof (ecdsa_Update_frame report nonce ec st) as Hf. cbv zeta in Hf.
    destruct (teeStateECDSA_Update env report nonce (ec, st)) as [r [ec' st']].
    cbn in *. destruct Hf as (Hid & _ & Hq). repeat split; eauto; apply Hq.
  - unfold callEPID.
    destruct (EPID_Update env ep report nonce (world st)) as [w' [r ep']]. cbn.
    repeat split; auto. apply quiet_set_world. reflexivity.
Qed.

(** C6 (as amended). [teeState.update] on an initialised state with the
    metrics enabled adds one to performed for the runtime and one to
    successful (the Update returned no error) or to failed (it returned
    an error), and leaves the other counter and all other labels as they
    were; with the metrics disabled, or on a state that is not
    initialised (which returns the not-initialized error), no counter
    changes. *)
Theorem update_metrics report nonce ts (st : St W) :
  let out := teeState_update env report nonce (ts, st) in
  let runtime := Namespace_String env (runtimeID ts) in
  let m := metrics st in
  let m' := metrics out.2.2 in
  match impl ts, metricsEnabled env, out.1 with
  | Some _, true, Ok _ =>
      m' = {| teeAttestationsPerformed := Inc runtime (teeAttestationsPerformed m);
              teeAttestationsSuccessful := Inc runtime (teeAttestationsSuccessful m);
              teeAttestationsFailed := teeAttestationsFailed m |}
  | Some _, true, Err _ =>
      m' = {| teeAttestationsPerformed := Inc runtime (teeAttestationsPerformed m);
              teeAttestationsSuccessful := teeAttestationsSuccessful m;
              teeAttestationsFailed := Inc runtime (teeAttestationsFailed m) |}
  | None, _, r => r = Err (Errorf "not initialized" []) /\ m' = m
  | _, _, _ => m' = m
  end.
Proof.
  cbv zeta. unfold teeState_update.
  destruct (impl ts) as [i|] eqn:Hi; [|destruct (metricsEnabled env); auto].
  pose proof (impl_Update_frame i report nonce ts st) as Hf. cbv zeta in Hf.
  destruct (teeStateImpl_Update env i report nonce ts st) as [r [ts' st']].
  cbn in Hf. destruct Hf as ((Hm & _) & Hrt & _).
  unfold UpdateAttestationMetrics.
  destruct (metricsEnabled env), r; cbn; rewrite ?Hrt, ?Hm; reflexivity.
Qed.

Lemma attest_frame_refl (s : teeState * St W) : attest_frame s s.
Proof. repeat split. Qed.

Lemma attest_frame_trans (a b c : teeState * St W) :
  attest_frame a b -> attest_frame b c -> attest_frame a c.
Proof. intros (?&?&?&?) (?&?&?&?). repeat split; congruence. Qed.

Lemma attest_frame_call {A} ev (f : W -> W * result A) ts (st : St W) :
  is_emit ev = false -> attest_frame (ts, st) (ts, (call ev f st).2).
Proof.
  intros He. repeat split. cbn. apply (quiet_call ev f st He).
Qed.

(** [ts.impl.Init] behind the interface. *)
Lemma impl_Init_frame i ts (st : St W) :
  impl ts = Some i ->
  attest_frame (ts, st) (teeStateImpl_Init env i ts st).2.
Proof.
  intros Hi. destruct i as [ec|ep]; unfold teeStateImpl_Init.
  - pose proof (ecdsa_Init_frame (runtimeID ts) (version ts) ec st) as Hf.
    cbv zeta in Hf.
    destruct (teeStateECDSA_Init env _ _ (ec, st)) as [r [ec' st']].
    cbn in *. destruct Hf as ((_ & He) & _).
    repeat split; auto. unfold teeState_kind. cbn. rewrite Hi. reflexivity.
  - unfold callEPID.
    destruct (EPID_Init env ep _ _ (world st)) as [w' [r ep']]. cbn.
    repeat split.
    + apply (quiet_set_world w' EvEPIDInit st). reflexivity.
    + unfold teeState_kind. cbn. rewrite Hi. reflexivity.
Qed.

Lemma teeState_updateTargetInfo_frame (s : teeState * St W) :
  attest_frame s (teeState_updateTargetInfo env s).2.
Proof.
  destruct s as [ts st]. unfold teeState_updateTargetInfo.
  destruct (impl ts) as [i|] eqn:Hi; [|apply attest_frame_refl].
  apply impl_Init_frame, Hi.
Qed.

Lemma teeState_update_frame report nonce (s : teeState * St W) :
  attest_frame s (teeState_update env report nonce s).2.
Proof.
  destruct s as [ts st]. unfold teeState_update.
  destruct (impl ts) as [i|] eqn:Hi; [|apply attest_frame_refl].
  pose proof (impl_Update_frame i report nonce ts st) as Hf. cbv zeta in Hf.
  destruct (teeStateImpl_Update env i report nonce ts st) as [r [ts' st']].
  cbn in Hf. destruct Hf as ((_ & He) & Hrt & Hv & Hk & _).
  assert (Hm : forall err, emitted (UpdateAttestationMetrics env (runtimeID ts') err st')
                           = emitted st').
  { intros err. unfold UpdateAttestationMetrics.
    destruct (metricsEnabled env), err; reflexivity. }
  assert (Hkind : teeState_kind ts' = teeState_kind ts).
  { rewrite Hk. unfold teeState_kind. rewrite Hi. reflexivity. }
  destruct r; repeat split; cbn; rewrite ?Hm; auto.
Qed.

(** A step of a computation that keeps the frame, followed by any
    continuation that keeps it, keeps it. *)
Lemma attest_frame_bind {A B} (m : M (teeState * St W) A) (k : A -> M (teeState * St W) B) :
  (forall s, attest_frame s (m s).2) ->
  (forall a s, attest_frame s (k a s).2) ->
  forall s, attest_frame s (bind m k s).2.
Proof.
  intros Hm Hk s. unfold bind. specialize (Hm s).
  destruct (m s) as [[a|e|p] s1]; cbn in *; auto.
  eapply attest_frame_trans; [exact Hm | apply Hk].
Qed.

Lemma attest_frame_wrap {A} fmt (m : M (teeState * St W) A) :
  (forall s, attest_frame s (m s).2) ->
  forall s, attest_frame s (wrap fmt m s).2.
Proof.
  intros Hm s. unfold wrap. specialize (Hm s).
  destruct (m s) as [[a|e|p] s1]; exact Hm.
Qed.

Lemma attest_frame_onSt_call {A} ev (f : W -> W * result A) :
  is_emit ev = false ->
  forall s : teeState * St W, attest_frame s (onSt (call ev f) s).2.
Proof.
  intros He [ts st]. unfold onSt.
  pose proof (attest_frame_call ev f ts st He) as Hc.
  destruct (call ev f st) as [r st']. exact Hc.
Qed.

(** One attestation emits nothing itself and keeps the runtime
    identifier, the version and the kind of implementation. *)
Lemma updateCapabilityTEE_frame (s : teeState * St W) :
  attest_frame s (sgxProvisioner_updateCapabilityTEE env s).2.
Proof.
  unfold sgxProvisioner_updateCapabilityTEE.
  apply attest_frame_bind.
  { apply attest_frame_wrap, teeState_updateTargetInfo_frame. }
  intros targetInfo. apply attest_frame_bind.
  { apply attest_frame_wrap. unfold sgxProvisioner_updateTargetInfo.
    intros [ts st]. unfold onSt, bind, ret.
    pose proof (attest_frame_call
                  (EvConnCall (RuntimeCapabilityTEERakInitRequest targetInfo))
                  (ConnCall env (RuntimeCapabilityTEERakInitRequest targetInfo))
                  ts st eq_refl) as Hc.
    destruct (call _ _ st) as [[b|e|p] st']; exact Hc. }
  intros _. apply attest_frame_bind.
  { apply attest_frame_wrap, attest_frame_onSt_call. reflexivity. }
  intros rakQuoteRes s1.
  destruct (RuntimeCapabilityTEERakReportResponse rakQuoteRes) as [rsp|];
    [|apply attest_frame_refl].
  revert s1. apply attest_frame_bind.
  { apply teeState_update_frame. }
  intros a s2. apply attest_frame_refl.
Qed.

(** C7. When a re-attestation started by the timer or by a notification
    returns an error, the worker logs it and goes back to its [select]:
    it is still running, the round has emitted no updated-capability
    event, and the loop goes on with the next case selected (timer tick,
    notification or process exit). *)
Theorem worker_survives_failed_attestation ver sel (wk : Worker) e ts' st' :
  status wk = Running ->
  sel <> SelProcessWait ->
  sgxProvisioner_updateCapabilityTEE env
    (w_ts wk, logf Info "regenerating CapabilityTEE" (w_st wk)) = (Err e, (ts', st')) ->
  let wk' := attestationWorker_iter env ver sel wk in
  status wk' = Running /\
  emitted (w_st wk') = emitted (w_st wk) /\
  logs (w_st wk') = logs st' ++ [mkLog Error "failed to regenerate CapabilityTEE"] /\
  forall rest,
    attestationWorker env ver (sel :: rest) wk = attestationWorker env ver rest wk'.
Proof.
  intros Hrun Hsel Hup. cbv zeta.
  pose proof (updateCapabilityTEE_frame
                (w_ts wk, logf Info "regenerating CapabilityTEE" (w_st wk))) as Hf.
  rewrite Hup in Hf. destruct Hf as (He & _). cbn in He.
  assert (Hiter : attestationWorker_iter env ver sel wk
                  = mkWorker ts' (logf Error "failed to regenerate CapabilityTEE" st')
                      (match sel with
                       | SelNotify => S (tickerResets wk)
                       | _ => tickerResets wk
                       end) (S (attests wk)) Running).
  { unfold attestationWorker_iter. destruct sel; [congruence| |]; rewrite Hup; reflexivity. }
  rewrite Hiter. cbn. repeat split.
  - exact He.
  - intros rest. rewrite Hrun, Hiter. reflexivity.
Qed.






(** C5 (as amended). [teeState.init] tries ECDSA first.  If
    [teeStateECDSA.Init] succeeds, ECDSA is selected and EPID is not even
    tried; the registry then supports PCS.  If it returns an error,
    whatever the cause, EPID is tried, and selected exactly when
    [teeStateEPID.Init] succeeds.  So EPID is selected exactly when the
    ECDSA initialisation returns an error and the EPID one succeeds. *)
Theorem init_prefers_ecdsa rid ver (st : St W) :
  let ts := {| runtimeID := rid; version := ver; impl := None |} in
  let ecdsa := teeStateECDSA_Init env rid ver (teeStateECDSA_zero, st) in
  let epid :=
    callEPID EvEPIDInit (EPID_Init env teeStateEPID_zero rid ver)
      (logf Debug "ECDSA attestation initialization failed, trying EPID" ecdsa.2.2) in
  let out := teeState_init env (ts, st) in
  match ecdsa.1 with
  | Ok targetInfo =>
      out = (Ok targetInfo, (set_impl (ImplECDSA ecdsa.2.1) ts, ecdsa.2.2)) /\
      registry_supports_PCS env st = true /\
      List.existsb (fun e => match e with EvEPIDInit => true | _ => false end)
                   (trace out.2.2) =
      List.existsb (fun e => match e with EvEPIDInit => true | _ => false end)
                   (trace st)
  | Err _ =>
      match epid.1.1 with
      | Ok targetInfo => out = (Ok targetInfo, (set_impl (ImplEPID epid.1.2) ts, epid.2))
      | Err e => out = (Err e, (ts, epid.2))
      | Panic p => out = (Panic p, (ts, epid.2))
      end
  | Panic p => out = (Panic p, (ts, ecdsa.2.2))
  end /\
  bool_decide (teeState_kind out.2.1 = Some KindEPID) = is_Err ecdsa.1 && is_Ok epid.1.1.
Proof.
  cbv zeta. unfold teeState_init. cbn [impl runtimeID version].
  destruct (teeStateECDSA_Init env rid ver (teeStateECDSA_zero, st))
    as [[targetInfo|e|p] [ec' st1]] eqn:Hinit; cbn [fst snd].
  - split; [|reflexivity]. split; [reflexivity|].
    destruct (ecdsa_Init_ok _ _ _ _ _ _ _ Hinit)
      as (w1 & regParams & w2 & akeys & key & Hc & Hp & Hk & _).
    split.
    + unfold registry_supports_PCS. rewrite Hc. cbn. rewrite Hp. reflexivity.
    + clear -Hinit. revert Hinit.
      unfold teeStateECDSA_Init, newTcbCache. unfold_monad. intros Hinit.
      repeat (case_match; cbn in *; simplify_eq).
      cbn. rewrite !existsb_app. cbn. rewrite !orb_false_r. reflexivity.
  - destruct (callEPID _ _ _) as [[[ti|e'|p'] ep'] st2]; cbn; split; reflexivity.
  - split; reflexivity.
Qed.

(** When the registry supports PCS and AESM offers an ECDSA key and its
    target info, [teeStateECDSA.Init] succeeds. *)
Lemma ecdsa_Init_succeeds rid ver ec (st : St W) w1 regParams w2 akeys key w3 targetInfo :
  ConsensusParams env (world st) = (w1, Ok regParams) ->
  pcs_unsupported regParams = false ->
  GetAttestationKeyIDs env w1 = (w2, Ok akeys) ->
  firstECDSAKey akeys = Some key ->
  GetTargetInfo env key w2 = (w3, Ok targetInfo) ->
  (teeStateECDSA_Init env rid ver (ec, st)).1 = Ok targetInfo.
Proof.
  intros Hc Hp Hk Hf Ht.
  unfold teeStateECDSA_Init, newTcbCache. unfold_monad.
  rewrite Hc. cbn. rewrite Hp. cbn. rewrite Hk. cbn. rewrite Hf. cbn.
  rewrite Ht. reflexivity.
Qed.

(** [teeState.update] keeps the key and the cache object of the state. *)
Lemma teeState_update_keeps_key report nonce ts (st : St W) :
  let out := teeState_update env report nonce (ts, st) in
  teeState_key out.2.1 = teeState_key ts /\
  teeState_cacheRef out.2.1 = teeState_cacheRef ts.
Proof.
  cbv zeta. unfold teeState_update, teeState_key, teeState_cacheRef.
  destruct (impl ts) as [i|] eqn:Hi; [|cbn; rewrite Hi; split; reflexivity].
  pose proof (impl_Update_frame i report nonce ts st) as Hf. cbv zeta in Hf.
  destruct (teeStateImpl_Update env i report nonce ts st) as [r [ts' st']].
  cbn in Hf. destruct Hf as (_ & _ & _ & Hk & Hi').
  assert (Hgoal : match impl ts' with
                  | Some (ImplECDSA ec) => ec_key ec
                  | _ => None
                  end = match i with ImplECDSA ec => ec_key ec | _ => None end /\
                  match impl ts' with
                  | Some (ImplECDSA ec) => cacheRef <$> ec_tcbCache ec
                  | _ => None
                  end = match i with
                        | ImplECDSA ec => cacheRef <$> ec_tcbCache ec
                        | _ => None
                        end).
  { destruct i as [ec|ep].
    - destruct Hi' as (ec' & -> & _ & Hkey & Href). auto.
    - unfold teeState_kind in Hk. destruct (impl ts') as [[?|?]|]; cbn in Hk;
        try discriminate; auto. }
  destruct r; cbn; exact Hgoal.
Qed.

(** C4 (as amended).  What is selected once and never changed is the
    kind of implementation: [init] refuses an initialised state, and an
    attestation keeps the kind, the runtime identifier and the version.
    The Update step of an attestation keeps the key and the cache object.
    But every attestation first runs the implementation's [Init] again:
    on ECDSA, when it succeeds, the key is again the first ECDSA key of
    the list AESM has just answered and the cache is a new object over
    the persistent store; when it fails the state is as before. *)
Theorem attest_reselects_key report nonce rid ver i (st : St W) :
  let ts := {| runtimeID := rid; version := ver; impl := Some i |} in
  let upd := teeState_update env report nonce (ts, st) in
  let att := sgxProvisioner_updateCapabilityTEE env (ts, st) in
  teeState_init env (ts, st) = (Err (Errorf "already initialized" []), (ts, st)) /\
  attest_frame (ts, st) att.2 /\
  teeState_key upd.2.1 = teeState_key ts /\
  teeState_cacheRef upd.2.1 = teeState_cacheRef ts /\
  match i with
  | ImplECDSA ec =>
      let again := teeState_updateTargetInfo env (ts, st) in
      let keys := GetAttestationKeyIDs env (ConsensusParams env (world st)).1 in
      match again.1 with
      | Ok _ =>
          teeState_key again.2.1
            = match keys.2 with Ok akeys => firstECDSAKey akeys | _ => None end /\
          teeState_cacheRef again.2.1 = Some (nextRef st)
      | _ => again.2.1 = ts
      end
  | ImplEPID _ => True
  end.
Proof.
  cbv zeta. split; [reflexivity|]. split; [apply updateCapabilityTEE_frame|].
  pose proof (teeState_update_keeps_key report nonce
                {| runtimeID := rid; version := ver; impl := Some i |} st) as [Hk Hr].
  split; [exact Hk|]. split; [exact Hr|].
  destruct i as [ec|ep]; [|exact I].
  unfold teeState_updateTargetInfo, teeStateImpl_Init. cbn [impl runtimeID version].
  pose proof (ecdsa_Init_frame rid ver ec st) as Hf. cbv zeta in Hf.
  destruct (teeStateECDSA_Init env rid ver (ec, st)) as [[targetInfo|e|p] [ec' st']] eqn:Hinit;
    cbn in *.
  - destruct (ecdsa_Init_ok _ _ _ _ _ _ _ Hinit)
      as (w1 & regParams & w2 & akeys & key & Hc & Hp & Hkeys & Hfirst & -> & _).
    rewrite Hc. cbn. rewrite Hkeys. cbn. rewrite Hfirst.
    split; reflexivity.
  - destruct Hf as (_ & _ & ->). reflexivity.
  - destruct Hf as (_ & _ & ->). reflexivity.
Qed.

(** C9 (as amended).  The mock [Update] calls no quoting service: its
    quote is [NewMockQuote] of the report, a function of the report
    alone.  The quote goes through the decoder ([UnmarshalBinary]) and
    through [VerifyPCK]; a failure of either ends the Update before any
    call.  The TCB bundle is then fetched from the PCS client directly,
    once, whatever the TCB cache holds: the cache is neither read (the
    run is the same on any other store) nor written; and the fetched
    bundle is sent to the enclave in the [RakQuote] request. *)
Theorem mock_update_fetches_directly report nonce (st : St W) store' :
  let out := teeStateMock_Update env report nonce (tt, st) in
  let out' := teeStateMock_Update env report nonce (tt, set_store store' st) in
  let made := drop (length (trace st)) (trace out.2.2) in
  out'.1 = out.1 /\ trace out'.2.2 = trace out.2.2 /\ world out'.2.2 = world out.2.2 /\
  serviceStore out.2.2 = serviceStore st /\
  List.existsb is_aesm_call made = false /\
  match NewMockQuote env report with
  | Ok rawQuote =>
      match UnmarshalBinary env rawQuote with
      | Ok quote =>
          match Signature quote with
          | SigECDSA_P256 qs =>
              match VerifyPCK env qs (Now env (world st)) with
              | Ok pckInfo =>
                  let fr := GetTCBBundle env (PCK_FMSPC pckInfo) (world st) in
                  match fr.2 with
                  | Ok tcbBundle =>
                      made = [EvGetTCBBundle (PCK_FMSPC pckInfo);
                              EvConnCall (RuntimeCapabilityTEERakQuoteRequest
                                {| Quote_PCS := Some {| QB_Quote := rawQuote;
                                                        QB_TCB := tcbBundle |} |})]
                  | Err e => made = [EvGetTCBBundle (PCK_FMSPC pckInfo)] /\ out.1 = Err e
                  | Panic p => made = [EvGetTCBBundle (PCK_FMSPC pckInfo)] /\ out.1 = Panic p
                  end
              | Err e =>
                  made = [] /\ out.1 = Err (Wrapf "PCK verification failed: %w" [] e)
              | Panic p => made = [] /\ out.1 = Panic p
              end
          | SigOther _ => made = [] /\ is_Err out.1 = true
          end
      | Err e => made = [] /\ out.1 = Err (Wrapf "failed to parse quote: %w" [] e)
      | Panic p => made = [] /\ out.1 = Panic p
      end
  | Err e => made = [] /\ out.1 = Err (Wrapf "failed to get quote: %w" [] e)
  | Panic p => made = [] /\ out.1 = Panic p
  end.
Proof.
  cbv zeta.
  unfold teeStateMock_Update, UpdateRuntimeQuote, Update_rakQuote. unfold_monad.
  cbn.
  repeat (case_match; cbn in *; simplify_eq);
    cbn; rewrite <- ?List.app_assoc; rewrite ?drop_app_length; cbn;
    rewrite ?drop_ge by reflexivity;
    repeat split; reflexivity.
Qed.

End DriverFacts.

(** * Runs on the sample collaborators *)


(** C6, counterexample.  With the metrics disabled a successful Update
    leaves the performed counter at its old value. *)
Lemma counted_once_counterexample :
  ~ counted_once (Sample.sampleEnv Sample.metricsOff) [x2a] "nonce-1"
      Sample.tsECDSA Sample.st0.
Proof.
  unfold counted_once. cbv zeta. intros [Hperf _].
  vm_compute in Hperf. discriminate Hperf.
Qed.

(** A timer round on the host whose quotes carry a PPID: the attestation
    fails and the worker is back at its [select]. *)
Lemma worker_survives_failed_attestation_witness :
  let env := Sample.sampleEnv Sample.ppidQuote in
  let out := sgxProvisioner_updateCapabilityTEE env
               (w_ts Sample.wk0,
                logf Info "regenerating CapabilityTEE" (w_st Sample.wk0)) in
  let wk' := attestationWorker_iter env Sample.v0 SelTick Sample.wk0 in
  out.1 = Err ErrPPIDUnsupported /\
  (status wk' = Running /\
   emitted (w_st wk') = emitted (w_st Sample.wk0) /\
   logs (w_st wk') = logs out.2.2 ++ [mkLog Error "failed to regenerate CapabilityTEE"] /\
   forall rest,
     attestationWorker env Sample.v0 (SelTick :: rest) Sample.wk0
     = attestationWorker env Sample.v0 rest wk').
Proof.
  cbv zeta. split; [vm_compute; reflexivity|].
  apply (worker_survives_failed_attestation (Sample.sampleEnv Sample.ppidQuote)
           Sample.v0 SelTick Sample.wk0 ErrPPIDUnsupported
           (sgxProvisioner_updateCapabilityTEE (Sample.sampleEnv Sample.ppidQuote)
              (w_ts Sample.wk0,
               logf Info "regenerating CapabilityTEE" (w_st Sample.wk0))).2.1
           (sgxProvisioner_updateCapabilityTEE (Sample.sampleEnv Sample.ppidQuote)
              (w_ts Sample.wk0,
               logf Info "regenerating CapabilityTEE" (w_st Sample.wk0))).2.2);
    [reflexivity | discriminate | vm_compute; reflexivity].
Defined.


(** C5, counterexample.  The registry supports PCS but AESM offers no
    ECDSA key: [init] selects EPID. *)
Lemma epid_only_without_pcs_counterexample :
  ~ epid_only_without_pcs (Sample.sampleEnv Sample.epidOnly) Sample.rt0 Sample.v0
      Sample.st0.
Proof.
  unfold epid_only_without_pcs. cbv zeta. intros H.
  apply H; vm_compute; reflexivity.
Qed.

(** C4, counterexample.  AESM answers another key identifier at the
    second query: the attestation made right after the initialisation
    replaces the key selected by the initialisation (index 1) by another
    one (index 5), and the cache object by a new one. *)
Lemma attest_keeps_state_counterexample :
  ~ attest_keeps_state (Sample.sampleEnv Sample.rotating) Sample.rt0 Sample.v0 Sample.st0.
Proof.
  unfold attest_keeps_state. intros H.
  destruct (sgxProvisioner_initCapabilityTEE (Sample.sampleEnv Sample.rotating)
              Sample.rt0 Sample.v0 Sample.st0) as [[ts| |] st] eqn:Hinit;
    try (vm_compute in Hinit; discriminate Hinit).
  specialize (H ts st eq_refl). cbv zeta in H. destruct H as [Hkey _].
  vm_compute in Hinit. injection Hinit as <- <-.
  vm_compute in Hkey. discriminate Hkey.
Qed.

(** C9, counterexample.  On the usual host with an empty TCB cache the
    mock Update succeeds and sends a bundle to the enclave, and the cache
    is still empty. *)
Lemma mock_uses_cache_counterexample :
  ~ mock_uses_cache (Sample.sampleEnv Sample.happy) [x2a] "nonce-1" Sample.st0.
Proof.
  unfold mock_uses_cache. cbv zeta. intros H.
  specialize (H Sample.bundleB).
  assert (Hin : Sample.bundleB ∈ cached_bundles
                  (serviceStore (teeStateMock_Update (Sample.sampleEnv Sample.happy)
                                   [x2a] "nonce-1" (tt, Sample.st0)).2.2)).
  { apply H. vm_compute. apply list_elem_of_here. }
  vm_compute in Hin. inversion Hin.
Qed.

(** ** The four steps of the refresh policy, run *)

(** Step 1: a refresh is due (nothing cached), the fresh bundle verifies:
    stored and used. *)
Example selection_fresh :
  Sample.observe
    (Update_tcbBundle (Sample.sampleEnv Sample.happy) Sample.quote0 (Some Sample.policy0)
       Sample.fmspc0 {| cacheRef := 0; entries := ∅ |} (Sample.st_at 10))
  = (Ok (Some Sample.bundleB), Some Sample.bundleB, [EvGetTCBBundle Sample.fmspc0]).
Proof. vm_compute. reflexivity. Qed.

(** Step 2 after step 1: a refresh is due, Intel PCS is unreachable, the
    cached bundle verifies: used, and the cache keeps it. *)
Example selection_cached_after_failed_refresh :
  Sample.observe
    (Update_tcbBundle (Sample.sampleEnv Sample.pcsDown) Sample.quote0 (Some Sample.policy0)
       Sample.fmspc0 Sample.cacheA (Sample.st_at 1000))
  = (Ok (Some Sample.bundleA), Some Sample.bundleA, [EvGetTCBBundle Sample.fmspc0]).
Proof. vm_compute. reflexivity. Qed.

(** Step 2 alone: no refresh is due and the cached bundle verifies: no
    call at all. *)
Example selection_cached :
  Sample.observe
    (Update_tcbBundle (Sample.sampleEnv Sample.happy) Sample.quote0 (Some Sample.policy0)
       Sample.fmspc0 Sample.cacheA (Sample.st_at 10))
  = (Ok (Some Sample.bundleA), Some Sample.bundleA, []).
Proof. vm_compute. reflexivity. Qed.

(** Step 3: no refresh is due, the cached bundle fails: forced fetch,
    whose bundle verifies and replaces the cached one. *)
Example selection_forced :
  Sample.observe
    (Update_tcbBundle (Sample.sampleEnv Sample.tightened) Sample.quote0 (Some Sample.policy0)
       Sample.fmspc0 Sample.cacheA (Sample.st_at 10))
  = (Ok (Some Sample.bundleB), Some Sample.bundleB, [EvGetTCBBundle Sample.fmspc0]).
Proof. vm_compute. reflexivity. Qed.

(** Step 3, failing: the forced fetch fails and its error ends the
    Update. *)
Example selection_forced_fails :
  Sample.observe
    (Update_tcbBundle
       (Sample.sampleEnv
          {| Sample.s_pcs := true;
             Sample.s_keys := fun _ => [Sample.ecdsaKey 1];
             Sample.s_cert := CertificationData_PCKCertificateChain [x30];
             Sample.s_fetch := fun _ => Err (ErrExternal "pcs: connection refused");
             Sample.s_verify := fun _ => Some Sample.outOfDate;
             Sample.s_epid := Ok [x0e];
             Sample.s_metrics := true;
             Sample.s_nonce := "nonce-1" |})
       Sample.quote0 (Some Sample.policy0)
       Sample.fmspc0 Sample.cacheA (Sample.st_at 10))
  = (Err (ErrExternal "pcs: connection refused"), Some Sample.bundleA,
     [EvGetTCBBundle Sample.fmspc0]).
Proof. vm_compute. reflexivity. Qed.

(** Step 4: a refresh is due, the fresh and the cached bundle both fail:
    the error of the cached bundle, wrapped; the cache keeps its entry. *)
Example selection_both_fail :
  Sample.observe
    (Update_tcbBundle (Sample.sampleEnv Sample.allOutOfDate) Sample.quote0
       (Some Sample.policy0) Sample.fmspc0 Sample.cacheA (Sample.st_at 1000))
  = (Err (Wrapf "both fresh and cached TCB bundles failed verification, cached error: %w"
                [] Sample.outOfDate),
     Some Sample.bundleA, [EvGetTCBBundle Sample.fmspc0]).
Proof. vm_compute. reflexivity. Qed.

(** The happy path of one whole attestation after the initialisation:
    metrics counted, bundle cached, one capability produced. *)
Example attestation_happy :
  match sgxProvisioner_initCapabilityTEE (Sample.sampleEnv Sample.happy)
          Sample.rt0 Sample.v0 Sample.st0 with
  | (Ok ts, st) =>
      let out := sgxProvisioner_updateCapabilityTEE (Sample.sampleEnv Sample.happy) (ts, st) in
      is_Ok out.1 = true /\
      counter (teeAttestationsSuccessful (metrics out.2.2)) "8000000000000000" = 1%nat /\
      (entry_bundle <$> (serviceStore out.2.2 !! Sample.fmspc0)) = Some Sample.bundleB
  | _ => False
  end.
Proof. vm_compute. repeat split; reflexivity. Qed.

(** * Further facts about the driver *)

(** Unfolds the monadic plumbing. *)
Ltac run_monad :=
  unfold bind, wrap, onSt, getR, setR, pure, throw, ret, call, time_Now,
    callEPID in *;
  cbv beta in *.

Section DriverCalls.
Context {W : Type} (env : Env W).

Lemma calls_made_app (st st' : St W) evs :
  trace st' = trace st ++ evs -> calls_made st st' = evs.
Proof. intros H. unfold calls_made. rewrite H. apply drop_app_length. Qed.

(** The bundle selection calls nothing, or Intel PCS once. *)
Lemma Update_tcbBundle_trace quote policy fmspc tc (st : St W) :
  let out := Update_tcbBundle env quote policy fmspc tc st in
  trace out.2 = trace st \/ trace out.2 = trace st ++ [EvGetTCBBundle fmspc].
Proof.
  cbv zeta.
  unfold Update_tcbBundle, Update_tcbBundle_cached, call,
    teeStateECDSA_verifyBundle, cache_store.
  cbv beta.
  destruct (tcbCache_check tc fmspc (Now env (world st))) as [cached refresh].
  destruct (GetTCBBundle env fmspc (world st)) as [w1 fetched] eqn:Hf.
  destruct refresh, fetched as [b|e|p], cached as [c|]; cbn;
    repeat (first [rewrite Hf | case_match]; cbn in *; simplify_eq);
    cbn; auto.
Qed.

(** Brings the calls made to an explicit list, using what the bundle
    selection has called. *)
Ltac explicit_calls :=
  unfold calls_made; cbn;
  try match goal with
    | H : Update_tcbBundle env ?q ?p ?f ?t ?s = (_, _, ?s') |- _ =>
        let Htr := fresh "Htr" in
        pose proof (Update_tcbBundle_trace q p f t s) as Htr;
        cbv zeta in Htr; rewrite H in Htr; cbn in Htr;
        destruct Htr as [Htr|Htr]; rewrite ?Htr
    end;
  rewrite <- ?List.app_assoc; cbn; rewrite ?drop_app_length; cbn.

(** X1.  Whatever [teeStateECDSA.Update] answers, the calls it makes are,
    in this order: one [GetQuoteEx], then possibly the quote policies,
    then at most one download from Intel PCS, then at most one RakQuote
    request to the enclave; when it succeeds, the RakQuote request is the
    last call. *)
Theorem ecdsa_update_calls report nonce ec (st : St W) :
  let out := teeStateECDSA_Update env report nonce (ec, st) in
  let made := calls_made st out.2.2 in
  trace out.2.2 = trace st ++ made /\
  update_call_shape made = true /\
  (length (List.filter is_pcs_fetch made) <= 1)%nat /\
  match out.1 with
  | Ok _ => exists q, last made = Some (EvConnCall (RuntimeCapabilityTEERakQuoteRequest q))
  | _ => True
  end.
Proof.
  cbv zeta.
  unfold teeStateECDSA_Update, Update_selectBundle, Update_rakQuote. run_monad.
  repeat (case_match; cbn in *; simplify_eq); cbn;
    explicit_calls; repeat split; eauto.
Qed.

(** X2.  Every RakQuote request that [teeStateECDSA.Update] sends to the
    enclave carries the raw quote answered by [GetQuoteEx] and a TCB
    bundle that [quote.Verify] has accepted for the parsed quote. *)
Theorem ecdsa_update_sends_verified report nonce ec (st : St W) :
  let out := teeStateECDSA_Update env report nonce (ec, st) in
  Forall (fun q =>
    exists w rawQuote quote pol b w',
      GetQuoteEx env (ec_key ec) report (world st) = (w, Ok rawQuote) /\
      UnmarshalBinary env rawQuote = Ok quote /\
      q = {| Quote_PCS := Some {| QB_Quote := rawQuote; QB_TCB := b |} |} /\
      QuoteVerify env quote pol (Now env w') b = None)
    (rak_quotes (calls_made st out.2.2)).
Proof.
  cbv zeta.
  unfold teeStateECDSA_Update, Update_selectBundle, Update_rakQuote. run_monad.
  repeat (case_match; cbn in *; simplify_eq); cbn;
    try match goal with
      | H : Update_tcbBundle env ?q ?p ?f ?t ?s = (_, _, _) |- _ =>
          let Hv := fresh "Hv" in
          pose proof (Update_tcbBundle_stores_verified env q p f t s) as Hv;
          cbv zeta in Hv; rewrite H in Hv; cbn in Hv
      end;
    explicit_calls;
    repeat constructor;
    match goal with
    | Hv : exists b, Some _ = Some b /\ _ |- _ =>
        destruct Hv as (b & Hb & Hver & _); simplify_eq;
        do 6 eexists; repeat split; eauto
    end.
Qed.

(** X3.  [teeStateECDSA.Init] asks the registry parameters, then the AESM
    key list, then the target info, each at most once and in this order;
    on success the target info was asked for the key it stored, and on
    failure the ECDSA state is left as it was. *)
Theorem ecdsa_Init_calls rid ver ec (st : St W) :
  let out := teeStateECDSA_Init env rid ver (ec, st) in
  let made := calls_made st out.2.2 in
  trace out.2.2 = trace st ++ made /\
  init_call_shape made = true /\
  match out.1 with
  | Ok _ =>
      exists key, ec_key out.2.1 = Some key /\ last made = Some (EvGetTargetInfo key)
  | _ => out.2.1 = ec
  end.
Proof.
  cbv zeta. unfold teeStateECDSA_Init, newTcbCache. run_monad.
  repeat (case_match; cbn in *; simplify_eq); cbn;
    unfold calls_made; cbn; rewrite <- ?List.app_assoc; cbn;
    rewrite ?drop_app_length; cbn; repeat split; eauto.
Qed.

(** X4.  When the registry parameters are answered but lack the PCS
    feature, [teeStateECDSA.Init] fails with [ECDSA not supported by the
    registry] after this single call: AESM is not queried and the ECDSA
    state is unchanged. *)
Theorem ecdsa_Init_registry_without_pcs rid ver ec (st : St W) w regParams :
  ConsensusParams env (world st) = (w, Ok regParams) ->
  pcs_unsupported regParams = true ->
  teeStateECDSA_Init env rid ver (ec, st)
  = (Err (Errorf "ECDSA not supported by the registry" []),
     (ec, set_world w EvConsensusParameters st)).
Proof.
  intros Hc Hp. unfold teeStateECDSA_Init. run_monad.
  rewrite Hc. cbn. rewrite Hp. reflexivity.
Qed.

(** X5.  When the registry supports PCS but none of the keys answered by
    AESM is an ECDSA P-256 key, [teeStateECDSA.Init] fails with [no
    suitable ECDSA attestation keys found]; the target info is not asked
    for and the ECDSA state is unchanged. *)
Theorem ecdsa_Init_no_ecdsa_key rid ver ec (st : St W) w1 regParams w2 akeys :
  ConsensusParams env (world st) = (w1, Ok regParams) ->
  pcs_unsupported regParams = false ->
  GetAttestationKeyIDs env w1 = (w2, Ok akeys) ->
  Forall (fun akey => Type_ akey <> AttestationKeyECDSA_P256) akeys ->
  teeStateECDSA_Init env rid ver (ec, st)
  = (Err (Errorf "no suitable ECDSA attestation keys found" []),
     (ec, set_world w2 EvGetAttestationKeyIDs (set_world w1 EvConsensusParameters st))).
Proof.
  intros Hc Hp Hk Hall. unfold teeStateECDSA_Init. run_monad.
  rewrite Hc. cbn. rewrite Hp. cbn. rewrite Hk. cbn.
  assert (Hnone : firstECDSAKey akeys = None).
  { clear -Hall. induction Hall as [|akey rest Hty _ IH]; [reflexivity|].
    cbn. destruct (Type_ akey); [congruence | exact IH]. }
  rewrite Hnone. reflexivity.
Qed.

(** X6.  The key loop of [teeStateECDSA.Init] picks the first ECDSA P-256
    key of the list: every key before it has another type, and no key is
    picked exactly when no key of the list has that type. *)
Theorem firstECDSAKey_first akeys :
  match firstECDSAKey akeys with
  | Some key =>
      exists before after,
        akeys = before ++ key :: after /\
        Type_ key = AttestationKeyECDSA_P256 /\
        Forall (fun akey => Type_ akey <> AttestationKeyECDSA_P256) before
  | None => Forall (fun akey => Type_ akey <> AttestationKeyECDSA_P256) akeys
  end.
Proof.
  induction akeys as [|akey rest IH]; cbn; [constructor|].
  destruct (Type_ akey) eqn:Hty.
  - exists [], rest. repeat split; auto.
  - destruct (firstECDSAKey rest) as [key|].
    + destruct IH as (before & after & -> & Hkey & Hbefore).
      exists (akey :: before), after. repeat split; auto.
      constructor; [congruence | exact Hbefore].
    + constructor; [congruence | exact IH].
Qed.




Lemma conn_requests_app evs1 evs2 :
  conn_requests (evs1 ++ evs2) = conn_requests evs1 ++ conn_requests evs2.
Proof. unfold conn_requests. apply flat_map_app. Qed.



(** [teeState.init] on a fresh state sends nothing to the enclave; when
    it succeeds the state holds an implementation. *)
Lemma teeState_init_requests rid ver (st : St W) :
  let ts := {| runtimeID := rid; version := ver; impl := None |} in
  let out := teeState_init env (ts, st) in
  (exists evs, trace out.2.2 = trace st ++ evs /\ conn_requests evs = []) /\
  match out.1 with
  | Ok _ => exists i, out.2.1 = {| runtimeID := rid; version := ver; impl := Some i |}
  | _ => out.2.1 = ts
  end.
Proof.
  cbv zeta. unfold teeState_init. cbn [impl runtimeID version].
  unfold teeStateECDSA_Init, newTcbCache, callEPID. run_monad.
  repeat (case_match; cbn in *; simplify_eq); cbn;
    rewrite <- ?List.app_assoc; (split; [eexists; split; reflexivity|]); eauto.
Qed.

(** The requests of the initialisation. *)
Lemma initCapabilityTEE_requests rid ver (st : St W) :
  let out := sgxProvisioner_initCapabilityTEE env rid ver st in
  exists evs, trace out.2 = trace st ++ evs /\
    match out.1 with
    | Ok ts =>
        (exists targetInfo,
           conn_requests evs = [RuntimeCapabilityTEERakInitRequest targetInfo]) /\
        exists i, ts = {| runtimeID := rid; version := ver; impl := Some i |}
    | _ =>
        conn_requests evs = [] \/
        exists targetInfo,
          conn_requests evs = [RuntimeCapabilityTEERakInitRequest targetInfo]
    end.
Proof.
  cbv zeta. unfold sgxProvisioner_initCapabilityTEE, sgxProvisioner_updateTargetInfo.
  run_monad.
  pose proof (teeState_init_requests rid ver st) as Hinit. cbv zeta in Hinit.
  destruct (teeState_init env _) as [[targetInfo|e|p] [ts1 st1]];
    cbn in Hinit; destruct Hinit as ((evs1 & Htr1 & Hreq1) & Hts); cbn;
    try (exists evs1; split; [exact Htr1 | left; exact Hreq1]).
  destruct (ConnCall env (RuntimeCapabilityTEERakInitRequest targetInfo) (world st1))
    as [w2 [b2|e2|p2]]; cbn;
    (eexists; split; [rewrite Htr1, <- List.app_assoc; reflexivity|]);
    rewrite conn_requests_app, Hreq1; cbn; eauto.
Qed.

(** X8.  A successful [initCapabilityTEE] has sent exactly one RakInit
    request to the enclave and answers a TEE state with the given runtime
    identifier and version and an implementation selected; a failed one
    has sent at most that one request. *)
Theorem initCapabilityTEE_outcome rid ver (st : St W) :
  let out := sgxProvisioner_initCapabilityTEE env rid ver st in
  let reqs := conn_requests (calls_made st out.2) in
  match out.1 with
  | Ok ts =>
      (exists targetInfo, reqs = [RuntimeCapabilityTEERakInitRequest targetInfo]) /\
      exists i, ts = {| runtimeID := rid; version := ver; impl := Some i |}
  | _ =>
      reqs = [] \/
      exists targetInfo, reqs = [RuntimeCapabilityTEERakInitRequest targetInfo]
  end.
Proof.
  cbv zeta.
  destruct (initCapabilityTEE_requests rid ver st) as (evs & Htr & H).
  rewrite (calls_made_app _ _ _ Htr). exact H.
Qed.


End DriverCalls.

Section WorkerFacts.
Context {W : Type} (env : Env W).

(** X10.  One round of the attestation worker: on process exit it returns
    without attesting; otherwise it attests once, emits exactly one
    [UpdateCapabilityTEE] event with the new capability when the
    attestation succeeded and none when it failed, and keeps running
    unless the attestation panicked. *)
Theorem attestationWorker_iter_outcome ver sel (wk : Worker) :
  let wk' := attestationWorker_iter env ver sel wk in
  let res := (sgxProvisioner_updateCapabilityTEE env
                (w_ts wk, logf Info "regenerating CapabilityTEE" (w_st wk))).1 in
  match sel with
  | SelProcessWait =>
      wk' = mkWorker (w_ts wk) (w_st wk) (tickerResets wk) (attests wk) Returned
  | _ =>
      emitted (w_st wk')
      = emitted (w_st wk) ++ match res with
                             | Ok capabilityTEE => [EvEmitUpdated ver capabilityTEE]
                             | _ => []
                             end /\
      status wk' = match res with Panic p => Crashed p | _ => Running end /\
      attests wk' = S (attests wk)
  end.
Proof.
  cbv zeta. unfold attestationWorker_iter.
  pose proof (updateCapabilityTEE_frame env
                (w_ts wk, logf Info "regenerating CapabilityTEE" (w_st wk))) as Hf.
  destruct (sgxProvisioner_updateCapabilityTEE env _) as [[c|e|p] [ts' st']];
    destruct Hf as (He & _); cbn in He;
    destruct sel; try reflexivity; cbn;
    unfold emitted in *; cbn; rewrite ?List.filter_app; cbn;
    rewrite ?app_nil_r; rewrite He; repeat split; reflexivity.
Qed.

Lemma attestationWorker_stopped ver sels (wk : Worker) :
  status wk <> Running -> attestationWorker env ver sels wk = wk.
Proof. intros H. destruct sels; cbn; [reflexivity|]. destruct (status wk); congruence. Qed.

Lemma attestationWorker_app ver sels1 sels2 (wk : Worker) :
  attestationWorker env ver (sels1 ++ sels2) wk
  = attestationWorker env ver sels2 (attestationWorker env ver sels1 wk).
Proof.
  revert wk. induction sels1 as [|sel sels1 IH]; intros wk; [reflexivity|].
  cbn. destruct (status wk) eqn:Hs; [apply IH| |];
    rewrite attestationWorker_stopped; congruence.
Qed.

(** X11.  Once the process has exited the attestation worker is over:
    whatever is selected afterwards changes nothing, and the worker is no
    longer running. *)
Theorem attestationWorker_exit_absorbing ver sels1 sels2 (wk : Worker) :
  attestationWorker env ver (sels1 ++ SelProcessWait :: sels2) wk
  = attestationWorker env ver (sels1 ++ [SelProcessWait]) wk /\
  status (attestationWorker env ver (sels1 ++ SelProcessWait :: sels2) wk) <> Running.
Proof.
  assert (Hstop : status (attestationWorker env ver (sels1 ++ [SelProcessWait]) wk)
                  <> Running).
  { rewrite attestationWorker_app. cbn.
    destruct (status (attestationWorker env ver sels1 wk)) eqn:Hs; cbn; congruence. }
  assert (Heq : attestationWorker env ver (sels1 ++ SelProcessWait :: sels2) wk
                = attestationWorker env ver (sels1 ++ [SelProcessWait]) wk).
  { change (SelProcessWait :: sels2) with ([SelProcessWait] ++ sels2).
    rewrite List.app_assoc, attestationWorker_app.
    apply attestationWorker_stopped, Hstop. }
  split; [exact Heq | rewrite Heq; exact Hstop].
Qed.

(** *** Metrics *)

Lemma keeps_bind {S A B} (R : S -> S -> Prop) `{!PreOrder R}
    (m : M S A) (k : A -> M S B) :
  keeps R m -> (forall a, keeps R (k a)) -> keeps R (bind m k).
Proof.
  intros Hm Hk s. unfold bind. specialize (Hm s).
  destruct (m s) as [[a|e|p] s1]; cbn in *; auto.
  etransitivity; [exact Hm | apply Hk].
Qed.

Lemma keeps_wrap {S A} (R : S -> S -> Prop) fmt (m : M S A) :
  keeps R m -> keeps R (wrap fmt m).
Proof.
  intros Hm s. unfold wrap. specialize (Hm s).
  destruct (m s) as [[a|e|p] s1]; exact Hm.
Qed.

#[local] Instance balance_kept_preorder : PreOrder (balance_kept (W := W)).
Proof. split; [intros s H; exact H | intros a b c Hab Hbc H; auto]. Qed.

Lemma balanced_same_metrics (st st' : St W) :
  metrics st' = metrics st -> balanced (metrics st) -> balanced (metrics st').
Proof. intros ->. auto. Qed.

Lemma UpdateAttestationMetrics_balanced rid err (st : St W) :
  balanced (metrics st) -> balanced (metrics (UpdateAttestationMetrics env rid err st)).
Proof.
  intros Hb. unfold UpdateAttestationMetrics.
  destruct (metricsEnabled env); [|exact Hb].
  destruct err; cbn; intros runtime; cbn; specialize (Hb runtime);
    destruct (decide (Namespace_String env rid = runtime)) as [<-|Hne];
    rewrite ?counter_Inc, ?counter_Inc_ne by exact Hne; lia.
Qed.

Lemma keeps_balance_call {A} ev (f : W -> W * result A) :
  keeps (balance_kept (W := W)) (onSt (R := teeState) (call ev f)).
Proof.
  intros [ts st]. unfold onSt, call. destruct (f (world st)) as [w r]. cbn.
  intros H. exact H.
Qed.

Lemma impl_Init_metrics i ts (st : St W) :
  metrics (teeStateImpl_Init env i ts st).2.2 = metrics st.
Proof.
  destruct i as [ec|ep]; unfold teeStateImpl_Init.
  - pose proof (ecdsa_Init_frame env (runtimeID ts) (version ts) ec st) as Hf.
    cbv zeta in Hf.
    destruct (teeStateECDSA_Init env _ _ (ec, st)) as [r [ec' st']].
    cbn in *. apply Hf.
  - unfold callEPID. destruct (EPID_Init env ep _ _ (world st)) as [w' [r ep']].
    reflexivity.
Qed.

Lemma updateCapabilityTEE_balanced : keeps balance_kept (sgxProvisioner_updateCapabilityTEE env).
Proof.
  unfold sgxProvisioner_updateCapabilityTEE.
  apply keeps_bind; [apply _| |].
  { apply keeps_wrap. intros [ts st]. unfold teeState_updateTargetInfo.
    destruct (impl ts) as [i|]; [|intros H; exact H].
    intros H. eapply balanced_same_metrics; [apply impl_Init_metrics | exact H]. }
  intros targetInfo. apply keeps_bind; [apply _| |].
  { apply keeps_wrap. unfold sgxProvisioner_updateTargetInfo.
    intros [ts st]. unfold onSt, bind, ret, call.
    destruct (ConnCall env _ (world st)) as [w [b|e|p]]; intros H; exact H. }
  intros _. apply keeps_bind; [apply _| |].
  { apply keeps_wrap, keeps_balance_call. }
  intros rakQuoteRes.
  destruct (RuntimeCapabilityTEERakReportResponse rakQuoteRes) as [rsp|];
    [|intros s H; exact H].
  apply keeps_bind; [apply _| |]; [|intros a s H; exact H].
  intros [ts st]. unfold teeState_update.
  destruct (impl ts) as [i|]; [|intros H; exact H].
  pose proof (impl_Update_frame env i (Report rsp) (Nonce rsp) ts st) as Hf.
  cbv zeta in Hf.
  destruct (teeStateImpl_Update env i _ _ ts st) as [r [ts' st']].
  cbn in Hf. destruct Hf as ((Hm & _) & _).
  intros H. cbn in H.
  destruct r; cbn; try apply UpdateAttestationMetrics_balanced;
    eapply balanced_same_metrics; eauto.
Qed.

(** X12.  If for every runtime the performed attestations are the sum of
    the successful and the failed ones, this still holds after any run of
    the attestation worker. *)
Theorem attestationWorker_keeps_balance ver sels (wk : Worker) :
  balanced (metrics (w_st wk)) ->
  balanced (metrics (w_st (attestationWorker env ver sels wk))).
Proof.
  revert wk. induction sels as [|sel sels IH]; intros wk Hb; [exact Hb|].
  cbn. destruct (status wk); [|exact Hb..].
  apply IH. unfold attestationWorker_iter.
  destruct sel; [exact Hb| |];
    (pose proof (updateCapabilityTEE_balanced
                   (w_ts wk, logf Info "regenerating CapabilityTEE" (w_st wk)) Hb) as H;
     destruct (sgxProvisioner_updateCapabilityTEE env _) as [[c|e|p] [ts' st']];
     exact H).
Qed.

(** X13.  [teeStateMock.Init] makes one call, for the registry
    parameters.  It succeeds with a target info of 512 zero bytes when the
    registry supports PCS, and it answers an error when the parameters are
    unavailable or lack PCS. *)
Theorem mock_Init_outcome (st : St W) :
  let out := teeStateMock_Init env (tt, st) in
  calls_made st out.2.2 = [EvConsensusParameters] /\
  match out.1 with
  | Ok targetInfo =>
      length targetInfo = 512%nat /\ Forall (eq x00) targetInfo /\
      registry_supports_PCS env st = true
  | Err _ => registry_supports_PCS env st = false
  | Panic _ => True
  end.
Proof.
  cbv zeta. unfold teeStateMock_Init, registry_supports_PCS, calls_made. run_monad.
  destruct (ConsensusParams env (world st)) as [w [regParams|e|p]]; cbn -[replicate];
    rewrite ?drop_app_length; try (split; reflexivity).
  destruct (pcs_unsupported regParams); cbn -[replicate]; rewrite drop_app_length;
    (split; [reflexivity|]); [reflexivity|].
  split; [apply length_replicate|]. split; [|reflexivity].
  apply Forall_replicate. reflexivity.
Qed.

End WorkerFacts.

Section SandboxFacts.
Context (fs : HostFS) (lib : SgxLib).

(** [mode & os.ModeDevice != 0] tests bit 26 of the mode. *)
Lemma land_ModeDevice mode :
  negb (N.land mode ModeDevice =? 0)%N = N.testbit mode 26.
Proof.
  assert (H : N.land mode ModeDevice = if N.testbit mode 26 then ModeDevice else 0%N).
  { apply N.bits_inj. intros i. rewrite N.land_spec.
    unfold ModeDevice. rewrite N.shiftl_1_l, N.pow2_bits_eqb.
    destruct (N.eqb_spec 26 i) as [<-|Hne].
    - destruct (N.testbit mode 26); cbn; [|reflexivity].
      rewrite N.pow2_bits_eqb. reflexivity.
    - rewrite andb_false_r. destruct (N.testbit mode 26); [|symmetry; apply N.bits_0].
      rewrite N.pow2_bits_eqb. symmetry. apply N.eqb_neq. exact Hne. }
  rewrite H. destruct (N.testbit mode 26); reflexivity.
Qed.

Lemma discoverSGXDevice_loop_first devs :
  match discoverSGXDevice_loop fs devs with
  | Some dev =>
      exists before after,
        devs = before ++ dev :: after /\
        is_sgx_device fs dev = true /\
        Forall (fun d => is_sgx_device fs d = false) before
  | None => Forall (fun d => is_sgx_device fs d = false) devs
  end.
Proof.
  induction devs as [|dev rest IH]; cbn; [constructor|].
  assert (Hdev : match fs_Stat fs dev with
                 | Ok mode => negb (N.land mode ModeDevice =? 0)%N
                 | _ => false
                 end = is_sgx_device fs dev).
  { unfold is_sgx_device. destruct (fs_Stat fs dev); auto using land_ModeDevice. }
  destruct (is_sgx_device fs dev) eqn:Hd.
  - destruct (fs_Stat fs dev) as [mode| |]; try discriminate Hdev.
    rewrite Hdev. exists [], rest. repeat split; auto.
  - assert (Hskip : match fs_Stat fs dev with
                    | Ok mode =>
                        if negb (N.land mode ModeDevice =? 0)%N then Some dev
                        else discoverSGXDevice_loop fs rest
                    | _ => discoverSGXDevice_loop fs rest
                    end = discoverSGXDevice_loop fs rest).
    { destruct (fs_Stat fs dev); try reflexivity. rewrite Hdev. reflexivity. }
    rewrite Hskip.
    destruct (discoverSGXDevice_loop fs rest) as [found|].
    + destruct IH as (before & after & -> & Hfound & Hbefore).
      exists (dev :: before), after. repeat split; auto.
    + constructor; assumption.
Qed.

(** X14.  [discoverSGXDevice] answers the first of the four candidate
    paths that [os.Stat] reports as a device: every candidate before it is
    absent or not a device.  It fails with [no SGX device was found on
    this system] exactly when no candidate is a device, and never
    panics. *)
Theorem discoverSGXDevice_first :
  match discoverSGXDevice fs with
  | Ok dev =>
      exists before after,
        sgxDevices = before ++ dev :: after /\
        is_sgx_device fs dev = true /\
        Forall (fun d => is_sgx_device fs d = false) before
  | Err e =>
      e = Errorf "no SGX device was found on this system" [] /\
      Forall (fun d => is_sgx_device fs d = false) sgxDevices
  | Panic _ => False
  end.
Proof.
  unfold discoverSGXDevice.
  pose proof (discoverSGXDevice_loop_first sgxDevices) as H.
  destruct (discoverSGXDevice_loop fs sgxDevices); auto.
Qed.

Lemma discoverSGXDevice_device :
  match discoverSGXDevice fs with
  | Ok dev => is_sgx_device fs dev = true
  | _ => True
  end.
Proof.
  unfold discoverSGXDevice.
  pose proof (discoverSGXDevice_loop_first sgxDevices) as H.
  destruct (discoverSGXDevice_loop fs sgxDevices); [|exact I].
  destruct H as (? & ? & _ & H & _). exact H.
Qed.

(** A successful [loadEnclaveBinaries] answers an enclave and a
    SIGSTRUCT that verifies for it. *)
Lemma loadEnclaveBinaries_checked rtCfg lg :
  match (loadEnclaveBinaries fs lib rtCfg lg).1 with
  | Ok (sgxs, sig) =>
      fs_ReadFile fs (Bundle_Path rtCfg) = Ok sgxs /\
      exists pk parsed,
        sigstruct_Verify lib sig = Ok (pk, parsed) /\
        FromSgxsBytes lib sgxs = Ok (EnclaveHash parsed)
  | _ => True
  end.
Proof.
  unfold loadEnclaveBinaries, logw. run_monad.
  repeat (case_match; cbn in *; simplify_eq); cbn; auto;
    repeat match goal with
      | H : negb _ = false |- _ => apply negb_false_iff in H
      | H : bool_decide _ = true |- _ => apply bool_decide_eq_true in H
      | p : (Bytes * Sigstruct)%type |- _ => destruct p
      end; cbn in *; subst;
    (split; [reflexivity|]); do 2 eexists; split; eauto.
Qed.

(** X15.  When [loadEnclaveBinaries] succeeds, the enclave is the content
    of the bundle path, and the signature verifies as a SIGSTRUCT whose
    enclave hash is the hash derived from that enclave.  The signature was
    read from the configured signature path; only when no path is
    configured and both debug flags are set is it a generated dummy, with
    a warning logged. *)
Theorem loadEnclaveBinaries_sound rtCfg lg :
  let out := loadEnclaveBinaries fs lib rtCfg lg in
  match out.1 with
  | Ok (sgxs, sig) =>
      fs_ReadFile fs (Bundle_Path rtCfg) = Ok sgxs /\
      exists pk parsed rtExtra,
        Extra rtCfg = ExtraRuntime (Some rtExtra) /\
        sigstruct_Verify lib sig = Ok (pk, parsed) /\
        FromSgxsBytes lib sgxs = Ok (EnclaveHash parsed) /\
        if String.eqb (SignaturePath rtExtra) "" then
          UnsafeDebugGenerateSigstruct rtExtra = true /\
          DebugDontBlameOasis lib = true /\
          UnsafeDebugForEnclave lib sgxs = Ok sig /\
          out.2 = lg ++ [mkLog Warn "generating dummy enclave SIGSTRUCT"]
        else
          fs_ReadFile fs (SignaturePath rtExtra) = Ok sig /\ out.2 = lg
  | _ => True
  end.
Proof.
  cbv zeta. unfold loadEnclaveBinaries, logw. run_monad.
  repeat (case_match; cbn in *; simplify_eq); cbn; auto;
    repeat match goal with
      | H : negb _ = false |- _ => apply negb_false_iff in H
      | H : bool_decide _ = true |- _ => apply bool_decide_eq_true in H
      | H : _ && _ = true |- _ => apply andb_true_iff in H; destruct H
      | p : (Bytes * Sigstruct)%type |- _ => destruct p
      end; cbn in *; subst;
    (split; [reflexivity|]); do 3 eexists; (split; [eauto|]);
    (split; [eauto|]); (split; [eauto|]);
    repeat match goal with
      | H : negb _ = true |- _ => apply negb_true_iff in H
      | H : (_ =? _)%string = _ |- _ => rewrite H
      end; auto.
Qed.

End SandboxFacts.

Section SandboxConfigFacts.
Context (fs : HostFS) (lib : SgxLib).

(** X16.  When [getSandboxConfig] succeeds, the loader arguments end with
    the signature path and the runtime path, the data bound at these two
    paths are a SIGSTRUCT that verifies and the enclave whose hash it
    signs, nothing else is bound as data, and the single device bound is
    one that [os.Stat] reports as a device.  In sandbox mode the two paths
    are [/runtime] and [/runtime.sig].  Every error is prefixed
    [host/sgx:]. *)
Theorem getSandboxConfig_outcome cfg rtCfg socketPath runtimeDir lg :
  let out := getSandboxConfig fs lib cfg rtCfg socketPath runtimeDir lg in
  let runtimePath :=
    if InsecureNoSandbox cfg then filepath_Join lib runtimeDir "/runtime"
    else "/runtime" in
  let signaturePath :=
    if InsecureNoSandbox cfg then filepath_Join lib runtimeDir "/runtime.sig"
    else "/runtime.sig" in
  match out.1 with
  | Ok pc =>
      exists sgxs sig dev pk parsed,
        fs_ReadFile fs (Bundle_Path rtCfg) = Ok sgxs /\
        sigstruct_Verify lib sig = Ok (pk, parsed) /\
        FromSgxsBytes lib sgxs = Ok (EnclaveHash parsed) /\
        is_sgx_device fs dev = true /\
        proc_BindDev pc = {[ dev := dev ]} /\
        proc_Args pc = ["--host-socket"; socketPath; "--type"; "sgxs";
                        "--signature"; signaturePath; runtimePath] /\
        proc_BindData pc !! signaturePath = Some sig /\
        (runtimePath = signaturePath \/ proc_BindData pc !! runtimePath = Some sgxs) /\
        (forall path, path <> runtimePath -> path <> signaturePath ->
                      proc_BindData pc !! path = None) /\
        if InsecureNoSandbox cfg then True
        else proc_BindData pc = {[ "/runtime" := sgxs; "/runtime.sig" := sig ]}
  | Err e =>
      exists cause,
        (e = Wrapf "host/sgx: failed to load enclave/signature: %w" [] cause /\
         (loadEnclaveBinaries fs lib rtCfg lg).1 = Err cause) \/
        (e = Wrapf "host/sgx: %w" [] cause /\
         discoverSGXDevice fs = Err cause)
  | Panic _ => True
  end.
Proof.
  cbv zeta. unfold getSandboxConfig.
  pose proof (loadEnclaveBinaries_checked fs lib rtCfg lg) as Hload.
  pose proof (discoverSGXDevice_device fs) as Hisdev.
  unfold logw. run_monad.
  destruct (loadEnclaveBinaries fs lib rtCfg lg) as [[[sgxs sig]|cause|m] lg'];
    cbn -[discoverSGXDevice] in *; [|eauto|exact I].
  destruct Hload as (Hread & pk & parsed & Hver & Hhash).
  destruct (discoverSGXDevice fs) as [dev|cause|m]; cbn; [|eauto|exact I].
  exists sgxs, sig, dev, pk, parsed.
  repeat (split; [first [assumption | reflexivity]|]).
  split; [apply lookup_insert_eq|].
  split.
  { destruct (decide (
      (if InsecureNoSandbox cfg then filepath_Join lib runtimeDir sandboxMountRuntime
       else sandboxMountRuntime) =
      (if InsecureNoSandbox cfg then filepath_Join lib runtimeDir sandboxMountSignature
       else sandboxMountSignature))) as [Heq|Hne]; [left; exact Heq|right].
    rewrite lookup_insert_ne by (intros Heq; apply Hne; symmetry; exact Heq).
    apply lookup_insert_eq. }
  split.
  { intros path Hr Hs.
    rewrite lookup_insert_ne by (intros Heq; apply Hs; symmetry; exact Heq).
    rewrite lookup_insert_ne by (intros Heq; apply Hr; symmetry; exact Heq).
    apply lookup_empty. }
  destruct (InsecureNoSandbox cfg); [exact I|].
  apply insert_insert_ne. discriminate.
Qed.
End SandboxConfigFacts.

Section MetricsFacts.
Context {R : Type} (MustRegister : list string -> M R unit).

(** X17.  Over any sequence of [InitMetrics] calls the collectors are
    registered at most once: the registry is the one left by a single
    [MustRegister] if some call found the metrics enabled and none had run
    before, and is untouched otherwise; a panicking registration is not
    repeated. *)
Theorem InitMetrics_registers_once (calls : list bool) (p : PromState R) :
  let q := InitMetrics_calls MustRegister calls p in
  metricsOnce q = metricsOnce p || existsb id calls /\
  registry q =
    if negb (metricsOnce p) && existsb id calls
    then (MustRegister teeCollectors (registry p)).2
    else registry p.
Proof.
  cbv zeta. revert p.
  induction calls as [|enabled calls IH]; intros p.
  - cbn. rewrite orb_false_r, andb_false_r. auto.
  - unfold InitMetrics_calls in *. cbn [foldl existsb].
    destruct (IH (InitMetrics MustRegister enabled p).2) as [IHo IHr].
    rewrite IHo, IHr. unfold InitMetrics. destruct p as [r once].
    destruct enabled, once, (existsb id calls); cbn; auto.
Qed.

End MetricsFacts.
(** X4, on a host whose registry has PCS switched off. *)
Lemma ecdsa_Init_registry_without_pcs_witness :
  teeStateECDSA_Init (Sample.sampleEnv Cases.registryNoPCS) Sample.rt0 Sample.v0
    (Sample.ec0, Sample.st0)
  = (Err (Errorf "ECDSA not supported by the registry" []),
     (Sample.ec0, set_world 1%nat EvConsensusParameters Sample.st0)).
Proof.
  apply (ecdsa_Init_registry_without_pcs (Sample.sampleEnv Cases.registryNoPCS)
           Sample.rt0 Sample.v0 Sample.ec0 Sample.st0 1%nat
           {| Params_TEEFeatures := Some {| SGX := {| PCS := false |} |} |});
    reflexivity.
Defined.

(** X5, on a host whose AESM offers an EPID key only. *)
Lemma ecdsa_Init_no_ecdsa_key_witness :
  teeStateECDSA_Init (Sample.sampleEnv Sample.epidOnly) Sample.rt0 Sample.v0
    (Sample.ec0, Sample.st0)
  = (Err (Errorf "no suitable ECDSA attestation keys found" []),
     (Sample.ec0,
      set_world 2%nat EvGetAttestationKeyIDs
        (set_world 1%nat EvConsensusParameters Sample.st0))).
Proof.
  apply (ecdsa_Init_no_ecdsa_key (Sample.sampleEnv Sample.epidOnly)
           Sample.rt0 Sample.v0 Sample.ec0 Sample.st0 1%nat
           {| Params_TEEFeatures := Some {| SGX := {| PCS := true |} |} |}
           2%nat [Sample.epidKey]);
    [reflexivity | reflexivity | reflexivity |].
  constructor; [discriminate | constructor].
Defined.

(** X12, for three rounds of the worker started without any count. *)
Lemma attestationWorker_keeps_balance_witness :
  balanced (metrics (w_st (attestationWorker (Sample.sampleEnv Sample.happy) Sample.v0
                             [SelTick; SelNotify; SelTick] Sample.wk0))).
Proof.
  apply (attestationWorker_keeps_balance (Sample.sampleEnv Sample.happy) Sample.v0
           [SelTick; SelNotify; SelTick] Sample.wk0).
  intros runtime. reflexivity.
Defined.

(** * Facts about runtime bundles *)

Section BundleFacts.
Import bundle.
Context {F : Type} (lib : SgxLib) (deps : Deps F).

Lemma first_error_Ok {A} (body : A -> result unit) (l : list A) :
  first_error body l = Ok tt <-> Forall (fun a => body a = Ok tt) l.
Proof.
  induction l as [|a rest IH]; cbn; [split; auto|].
  rewrite Forall_cons. destruct (body a) as [[]| |]; [tauto| |];
    split; try discriminate; intros [? _]; discriminate.
Qed.

Lemma is_Ok_unit (r : result unit) : is_Ok r = true <-> r = Ok tt.
Proof. destruct r as [[]| |]; cbn; split; auto; discriminate. Qed.

(** [Validate] succeeds when each of its loops meets no error. *)
Lemma Validate_steps comps1 files comps2 (bnd : Bundle F) :
  Validate lib deps comps1 files comps2 bnd = Ok tt <->
  exists m,
    bnd_Manifest bnd = Some m /\
    Manifest_Validate deps m = Ok tt /\
    Forall (fun entry => files_present deps bnd entry.1 entry.2) comps1 /\
    Forall (fun entry => check_digest deps m entry = Ok tt) files /\
    Forall (fun entry => verifySgxSignature lib deps bnd entry.2 = Ok tt) comps2.
Proof.
  unfold Validate.
  destruct (bnd_Manifest bnd) as [m|];
    [|split; [discriminate | intros (m & Hm & _); discriminate]].
  destruct (Manifest_Validate deps m) as [[]|e|p] eqn:Hmv.
  2,3: split; [discriminate | intros (m' & Hm & Hv & _); simplify_eq; congruence].
  pose proof (first_error_Ok (check_file bnd)
                (flat_map (fun entry => needFiles_of deps entry.1 entry.2) comps1)) as Hf.
  rewrite List.Forall_flat_map in Hf.
  pose proof (first_error_Ok (check_digest deps m) files) as Hd.
  pose proof (first_error_Ok (fun entry => verifySgxSignature lib deps bnd entry.2)
                comps2) as Hs.
  destruct (first_error (check_file bnd) _) as [[]|e|p].
  2,3: split; [discriminate | intros (m' & _ & _ & H & _)];
       apply Hf in H; discriminate.
  destruct (first_error (check_digest deps m) files) as [[]|e|p].
  2,3: split; [discriminate | intros (m' & Hm & _ & _ & H & _)];
       simplify_eq; apply Hd in H; discriminate.
  split.
  - intros H. exists m. split; [reflexivity|]. split; [exact Hmv|].
    split; [apply Hf; reflexivity|]. split; [apply Hd; reflexivity|].
    apply Hs. exact H.
  - intros (m' & Hm & _ & _ & _ & H). apply Hs. exact H.
Qed.

(** The digest loop, whatever its order, checks [digests_match]. *)
Lemma check_digests_match (bnd : Bundle F) m files :
  bnd_Manifest bnd = Some m ->
  files ≡ₚ match bnd_Data bnd with
           | Some data => map_to_list data
           | None => []
           end ->
  Forall (fun entry => check_digest deps m entry = Ok tt) files <-> digests_match deps bnd.
Proof.
  intros Hm Hperm. rewrite Hperm. unfold digests_match, data_lookup. rewrite Hm.
  rewrite Forall_forall.
  assert (Hone : forall name d,
    check_digest deps m (name, d) = Ok tt <->
    exists h, HashAllData deps d = Ok h /\
      (digest_lookup m name = Some h \/
       (digest_lookup m name = None /\ name = manifestName deps))).
  { intros name d. unfold check_digest. cbn.
    destruct (HashAllData deps d) as [h|e|p].
    2,3: split; [discriminate | intros (h & Hh & _); discriminate].
    destruct (digest_lookup m name) as [mh|].
    - destruct (decide (h = mh)) as [->|Hne].
      + rewrite bool_decide_eq_true_2 by reflexivity. cbn.
        split; [intros _; exists mh; auto | reflexivity].
      + rewrite bool_decide_eq_false_2 by exact Hne. cbn.
        split; [discriminate|].
        intros (h' & Hh & [Hd|[Hd _]]); simplify_eq.
    - destruct (String.eqb_spec name (manifestName deps)) as [->|Hne].
      + split; [intros _; exists h; auto | reflexivity].
      + split; [discriminate|].
        intros (h' & _ & [Hd|[_ Hd]]); [discriminate | contradiction]. }
  destruct (bnd_Data bnd) as [data|].
  - split.
    + intros H name d Hd. apply Hone. apply (H (name, d)).
      apply elem_of_map_to_list. exact Hd.
    + intros H [name d] Hin. apply Hone, H.
      apply elem_of_map_to_list in Hin. exact Hin.
  - split; [intros _ name d Hd; discriminate | intros _ x Hin].
    apply elem_of_nil in Hin. contradiction.
Qed.


(** X19.  Whether [Validate] succeeds does not depend on the order in
    which its three loops visit the maps: two runs over permuted orders
    both succeed or both fail (the error reported may differ). *)
Theorem Validate_order_independent comps1 files comps2 comps1' files' comps2'
    (bnd : Bundle F) :
  comps1 ≡ₚ comps1' -> files ≡ₚ files' -> comps2 ≡ₚ comps2' ->
  is_Ok (Validate lib deps comps1 files comps2 bnd)
  = is_Ok (Validate lib deps comps1' files' comps2' bnd).
Proof.
  intros H1 Hf H2.
  assert (Hiff : Validate lib deps comps1 files comps2 bnd = Ok tt <->
                 Validate lib deps comps1' files' comps2' bnd = Ok tt).
  { rewrite !Validate_steps.
    split; intros (m & Hm & Hv & A & B & C); exists m.
    - rewrite <- H1, <- Hf, <- H2. auto.
    - rewrite H1, Hf, H2. auto. }
  rewrite <- !is_Ok_unit in Hiff.
  destruct (is_Ok (Validate lib deps comps1 files comps2 bnd)),
    (is_Ok (Validate lib deps comps1' files' comps2' bnd)); try reflexivity.
  - symmetry. apply Hiff. reflexivity.
  - apply Hiff. reflexivity.
Qed.

(** X20.  A successful [Add] was given a file name without directory; it
    stores the data under the name and its hash as the digest of the name,
    and leaves every other entry of both maps as it was.  A failed or
    panicking [Add] changes no entry of either map, and a refused file
    name leaves the bundle untouched. *)
Theorem Add_outcome name data (bnd : Bundle F) :
  let out := Add deps name data bnd in
  let digest_of b other :=
    match bnd_Manifest b with
    | Some m => digest_lookup m other
    | None => None
    end in
  match out.1 with
  | Ok _ =>
      filepath_Dir deps name = "." /\
      data_lookup out.2 name = Some data /\
      (exists h, HashAllData deps data = Ok h /\ digest_of out.2 name = Some h) /\
      forall other, other <> name ->
        data_lookup out.2 other = data_lookup bnd other /\
        digest_of out.2 other = digest_of bnd other
  | _ =>
      (filepath_Dir deps name <> "." -> out.2 = bnd) /\
      forall other,
        data_lookup out.2 other = data_lookup bnd other /\
        digest_of out.2 other = digest_of bnd other
  end.
Proof.
  cbv zeta. unfold Add, data_lookup, digest_lookup.
  destruct (String.eqb_spec (filepath_Dir deps name) ".") as [Hdir|Hdir]; cbn;
    [|split; auto].
  destruct bnd as [[[fields digests]|] files]; cbn; [|split; auto].
  destruct (HashAllData deps data) as [h|e|p]; cbn.
  - split; [exact Hdir|]. split; [apply lookup_insert_eq|].
    split; [exists h; split; [reflexivity | apply lookup_insert_eq]|].
    intros other Hne. rewrite !lookup_insert_ne by congruence.
    destruct digests, files; rewrite ?lookup_empty; auto.
  - split; [congruence|]. intros other.
    destruct digests, files; rewrite ?lookup_empty; auto.
  - split; [congruence|]. intros other.
    destruct digests, files; rewrite ?lookup_empty; auto.
Qed.

(** X21.  If every file of the bundle has the digest the manifest gives
    for it, this still holds after [Add], whatever it answers, and after
    [ResetManifest]. *)
Theorem Add_ResetManifest_keep_digests name data (bnd : Bundle F) :
  digests_match deps bnd ->
  digests_match deps (Add deps name data bnd).2 /\
  digests_match deps (ResetManifest deps bnd).
Proof.
  intros Hd. split.
  - unfold Add.
    destruct (negb _); [exact Hd|].
    destruct bnd as [[[fields digests]|] files]; [|exact Hd].
    unfold digests_match, data_lookup, digest_lookup in *. cbn in *.
    assert (Hold : forall other d,
              match files with Some fs => fs | None => ∅ end !! other = Some d ->
              exists h, HashAllData deps d = Ok h /\
                (match digests with Some ds => ds | None => ∅ end !! other = Some h \/
                 match digests with Some ds => ds | None => ∅ end !! other = None /\
                 other = manifestName deps)).
    { intros other d Hin.
      destruct files as [fs|]; [|rewrite lookup_empty in Hin; discriminate].
      destruct (Hd other d Hin) as (h & Hh & Hcase). exists h. split; [exact Hh|].
      destruct digests; [exact Hcase|]. rewrite lookup_empty. exact Hcase. }
    destruct (HashAllData deps data) as [h|e|p] eqn:Hh; cbn; try exact Hold.
    intros other d Hin.
    destruct (decide (other = name)) as [->|Hne].
    + rewrite lookup_insert_eq in Hin. simplify_eq.
      exists h. split; [exact Hh|]. left. apply lookup_insert_eq.
    + rewrite lookup_insert_ne in Hin by congruence.
      rewrite lookup_insert_ne by congruence. apply Hold, Hin.
  - intros other d Hin. apply (Hd other d).
    unfold ResetManifest, data_lookup in *. cbn in Hin.
    destruct (bnd_Data bnd) as [files|]; [|discriminate]. cbn in Hin.
    apply lookup_delete_Some in Hin. apply Hin.
Qed.

(** What a successful [MrEnclave] has read. *)
Lemma MrEnclave_Ok (bnd : Bundle F) id mrEnclave :
  Bundle_MrEnclave lib deps bnd id = Ok mrEnclave ->
  exists m comp sgx d b,
    bnd_Manifest bnd = Some m /\
    GetComponentByID deps m id = Some comp /\
    comp_SGX comp = Some sgx /\
    data_lookup bnd (sgx_Executable sgx) = Some d /\
    ReadAllData deps d = Ok b /\
    FromSgxsBytes lib b = Ok mrEnclave.
Proof.
  unfold Bundle_MrEnclave, ReadAllData. intros H.
  destruct (bnd_Manifest bnd) as [m|]; [|discriminate].
  destruct (GetComponentByID deps m id) as [comp|] eqn:Hc; [|discriminate].
  destruct (comp_SGX comp) as [sgx|] eqn:Hsgx; [|discriminate].
  destruct (data_lookup bnd (sgx_Executable sgx)) as [d|] eqn:Hd; [|discriminate].
  exists m, comp, sgx, d.
  destruct (Data_Open deps d) as [[b|e|p]|e|p]; try discriminate.
  exists b. destruct (FromSgxsBytes lib b) as [mre|e|p] eqn:Hh; simplify_eq.
  repeat split; auto.
Qed.

(** X22.  When [verifySgxSignature] accepts a component that names an SGX
    signature, the signature file is in the bundle and verifies as a
    SIGSTRUCT whose enclave hash is the MRENCLAVE the bundle derives for
    the component's identifier. *)
Theorem verifySgxSignature_sound (bnd : Bundle F) comp :
  match verifySgxSignature lib deps bnd comp, comp_SGX comp with
  | Ok _, Some sgx =>
      sgx_Signature sgx = "" \/
      exists d b pk parsed,
        data_lookup bnd (sgx_Signature sgx) = Some d /\
        ReadAllData deps d = Ok b /\
        sigstruct_Verify lib b = Ok (pk, parsed) /\
        Bundle_MrEnclave lib deps bnd (Component_ID deps comp) = Ok (EnclaveHash parsed)
  | _, _ => True
  end.
Proof.
  unfold verifySgxSignature.
  destruct (comp_SGX comp) as [sgx|]; [|exact I].
  destruct (String.eqb_spec (sgx_Signature sgx) "") as [Hs|Hs]; [left; exact Hs|].
  destruct (Bundle_MrEnclave lib deps bnd _) as [mrEnclave|e|p] eqn:Hmre; try exact I.
  destruct (data_lookup bnd (sgx_Signature sgx)) as [d|]; [|exact I].
  destruct (ReadAllData deps d) as [b|e|p] eqn:Hb; try exact I.
  destruct (sigstruct_Verify lib b) as [[pk parsed]|e|p] eqn:Hv; try exact I. cbn.
  destruct (decide (EnclaveHash parsed = mrEnclave)) as [<-|Hne].
  - rewrite bool_decide_eq_true_2 by reflexivity. cbn. right.
    exists d, b, pk, parsed. repeat split; auto.
  - rewrite bool_decide_eq_false_2 by exact Hne. exact I.
Qed.

(** X23.  For a component that is the one found under its own identifier
    and names an SGX signature accepted by [verifySgxSignature],
    [EnclaveIdentity] answers the enclave hash of that SIGSTRUCT together
    with the signer derived from its public key, and fails only if that
    derivation fails. *)
Theorem EnclaveIdentity_of_verified (bnd : Bundle F) m comp sgx :
  bnd_Manifest bnd = Some m ->
  GetComponentByID deps m (Component_ID deps comp) = Some comp ->
  comp_SGX comp = Some sgx ->
  sgx_Signature sgx <> "" ->
  verifySgxSignature lib deps bnd comp = Ok tt ->
  exists d b pk parsed,
    data_lookup bnd (sgx_Signature sgx) = Some d /\
    ReadAllData deps d = Ok b /\
    sigstruct_Verify lib b = Ok (pk, parsed) /\
    Bundle_EnclaveIdentity lib deps bnd (Component_ID deps comp)
    = match FromPublicKey deps pk with
      | Ok mrSigner => Ok {| MrEnclave := EnclaveHash parsed; MrSigner := mrSigner |}
      | Err e => Err e
      | Panic p => Panic p
      end.
Proof.
  intros Hm Hcomp Hsgx Hsig Hver.
  unfold verifySgxSignature in Hver. rewrite Hsgx in Hver.
  apply String.eqb_neq in Hsig. rewrite Hsig in Hver.
  destruct (Bundle_MrEnclave lib deps bnd _) as [mrEnclave|e|p] eqn:Hmre; try discriminate.
  destruct (data_lookup bnd (sgx_Signature sgx)) as [d|] eqn:Hd; [|discriminate].
  destruct (ReadAllData deps d) as [b|e|p] eqn:Hb; try discriminate.
  destruct (sigstruct_Verify lib b) as [[pk parsed]|e|p] eqn:Hv; try discriminate.
  cbn in Hver.
  destruct (decide (EnclaveHash parsed = mrEnclave)) as [<-|Hne];
    [|rewrite bool_decide_eq_false_2 in Hver by exact Hne; discriminate].
  exists d, b, pk, parsed. repeat split; auto.
  unfold Bundle_EnclaveIdentity, Bundle_MrSigner.
  rewrite Hmre, Hm, Hcomp, Hsgx, Hsig, Hd, Hb, Hv. cbn.
  destruct (FromPublicKey deps pk); reflexivity.
Qed.

(** X24.  An identity answered by [EnclaveIdentity] has the MRENCLAVE
    derived from the SGX executable of the component in the bundle.  Its
    MRSIGNER is derived from the public key of the verified signature
    file; it is the Fortanix dummy signer only when the component names no
    signature and the debug flag is set. *)
Theorem EnclaveIdentity_sound (bnd : Bundle F) id :
  match Bundle_EnclaveIdentity lib deps bnd id with
  | Ok identity =>
      exists m comp sgx exe sgxs,
        bnd_Manifest bnd = Some m /\
        GetComponentByID deps m id = Some comp /\
        comp_SGX comp = Some sgx /\
        data_lookup bnd (sgx_Executable sgx) = Some exe /\
        ReadAllData deps exe = Ok sgxs /\
        FromSgxsBytes lib sgxs = Ok (MrEnclave identity) /\
        ((sgx_Signature sgx = "" /\ DebugDontBlameOasis lib = true /\
          MrSigner identity = FortanixDummyMrSigner deps) \/
         exists d b pk parsed,
           data_lookup bnd (sgx_Signature sgx) = Some d /\
           ReadAllData deps d = Ok b /\
           sigstruct_Verify lib b = Ok (pk, parsed) /\
           FromPublicKey deps pk = Ok (MrSigner identity))
  | _ => True
  end.
Proof.
  unfold Bundle_EnclaveIdentity.
  destruct (Bundle_MrEnclave lib deps bnd id) as [mrEnclave|e|p] eqn:Hmre; try exact I.
  destruct (Bundle_MrSigner lib deps bnd id) as [mrSigner|e|p] eqn:Hmrs; try exact I.
  destruct (MrEnclave_Ok bnd id mrEnclave Hmre)
    as (m & comp & sgx & exe & sgxs & Hm & Hc & Hsgx & Hexe & Hread & Hhash).
  exists m, comp, sgx, exe, sgxs. cbn. repeat (split; [assumption|]).
  unfold Bundle_MrSigner in Hmrs. rewrite Hm, Hc, Hsgx in Hmrs.
  destruct (String.eqb_spec (sgx_Signature sgx) "") as [Hs|Hs];
    destruct (DebugDontBlameOasis lib); cbn in Hmrs;
    try (left; simplify_eq; auto; fail);
    right;
    destruct (data_lookup bnd (sgx_Signature sgx)) as [d|]; try discriminate;
    destruct (ReadAllData deps d) as [b|e|p] eqn:Hb; try discriminate;
    destruct (sigstruct_Verify lib b) as [[pk parsed]|e|p] eqn:Hv; try discriminate;
    exists d, b, pk, parsed; auto.
Qed.

End BundleFacts.


(** X19, on the sample bundle visited in two orders. *)
Lemma Validate_order_independent_witness :
  let comps := [(BundleCases.ronlID, BundleCases.ronl)] in
  is_Ok (bundle.Validate BundleCases.lib0 BundleCases.deps0 comps
           [BundleCases.elf; BundleCases.sgxs; BundleCases.sig] comps BundleCases.bnd0)
  = is_Ok (bundle.Validate BundleCases.lib0 BundleCases.deps0 comps
             [BundleCases.sgxs; BundleCases.elf; BundleCases.sig] comps BundleCases.bnd0).
Proof.
  apply (Validate_order_independent BundleCases.lib0 BundleCases.deps0);
    [reflexivity | apply perm_swap | reflexivity].
Defined.

(** X21, on the sample bundle with a file added. *)
Lemma Add_ResetManifest_keep_digests_witness :
  bundle.digests_match BundleCases.deps0
    (bundle.Add BundleCases.deps0 "runtime.elf" (bundle.bytesData [x7f; x45])
       BundleCases.bnd0).2 /\
  bundle.digests_match BundleCases.deps0
    (bundle.ResetManifest BundleCases.deps0 BundleCases.bnd0).
Proof.
  apply (Add_ResetManifest_keep_digests BundleCases.deps0 "runtime.elf"
           (bundle.bytesData [x7f; x45]) BundleCases.bnd0).
  apply (check_digests_match BundleCases.deps0 BundleCases.bnd0 BundleCases.manifest0
           (map_to_list BundleCases.data0) eq_refl); [reflexivity|].
  apply first_error_Ok. vm_compute. reflexivity.
Defined.

(** X23, on the sample bundle. *)
Lemma EnclaveIdentity_of_verified_witness :
  exists d b pk parsed,
    bundle.data_lookup BundleCases.bnd0 "runtime.sig" = Some d /\
    bundle.ReadAllData BundleCases.deps0 d = Ok b /\
    sigstruct_Verify BundleCases.lib0 b = Ok (pk, parsed) /\
    bundle.Bundle_EnclaveIdentity BundleCases.lib0 BundleCases.deps0 BundleCases.bnd0
      BundleCases.ronlID
    = match bundle.FromPublicKey BundleCases.deps0 pk with
      | Ok mrSigner =>
          Ok {| bundle.MrEnclave := EnclaveHash parsed; bundle.MrSigner := mrSigner |}
      | Err e => Err e
      | Panic p => Panic p
      end.
Proof.
  apply (EnclaveIdentity_of_verified BundleCases.lib0 BundleCases.deps0
           BundleCases.bnd0 BundleCases.manifest0 BundleCases.ronl
           {| bundle.sgx_Executable := "runtime.sgxs";
              bundle.sgx_Signature := "runtime.sig" |});
    [reflexivity | reflexivity | reflexivity | discriminate | vm_compute; reflexivity].
Defined.
